(** * BuildConnect server: a shallow embedding of the Express handlers

    The repository is one Express application kept in three snapshots
    (src/index.js, src/unnamed/part_000, src/unnamed/part_001).  Every
    handler parses the request, awaits a few SDK calls (Firestore, Firebase
    Auth, Razorpay, Nodemailer) and sends one response.

    The embedding has four layers:
    - [JS]: the values a parsed JSON body can hold, with the coercions the
      handlers rely on (truthiness, property reads, ToString, ToNumber,
      Math.round on IEEE doubles);
    - [Cap]: the SDK calls as the actions of a small free monad with
      exceptions, so that [await], [try]/[catch] and early [return] read as
      in the source, together with an interpreter that records the trace of
      calls for an arbitrary environment;
    - [Firestore]: an in-memory reference model of the document store;
    - [Index], [Part000], [Part001]: the handlers of the three snapshots.

    Logging ([console.log], [console.error]) is not modelled, except where
    building the logged text can throw. *)

From Stdlib Require Import Floats ZArith Ascii String.
From stdpp Require Import gmap strings list fin_maps pretty sorting.

#[local] Set Warnings "-register-all".
Local Open Scope string_scope.
Local Open Scope Z_scope.

(** ** JavaScript values *)

Module JS.

(** What [express.json()] hands to a handler, plus [undefined] for a field
    that is not there.  Numbers are IEEE 754 doubles; an object keeps its
    keys in insertion order. *)
Inductive value : Type :=
| VUndefined
| VNull
| VBool (b : bool)
| VNum (n : float)
| VStr (s : string)
| VArr (elems : list value)
| VObj (fields : list (string * value)).

(** A computation that may end in a thrown JavaScript value. *)
Inductive completion (A : Type) : Type :=
| Normal (a : A)
| Abrupt (thrown : value).
Arguments Normal {A} a.
Arguments Abrupt {A} thrown.

Definition cbind {A B} (m : completion A) (f : A -> completion B) : completion B :=
  match m with
  | Normal a => f a
  | Abrupt e => Abrupt e
  end.

#[export] Instance completion_ret : MRet completion := fun A a => Normal a.
#[export] Instance completion_bind : MBind completion := fun A B f m => cbind m f.

Definition type_error (msg : string) : value :=
  VObj [("name", VStr "TypeError"); ("message", VStr msg)].

Definition float_of_Z (z : Z) : float :=
  if z <? 0 then (- of_uint63 (Uint63.of_Z (- z)))%float
  else of_uint63 (Uint63.of_Z z).

Definition float_of_nat (n : nat) : float := float_of_Z (Z.of_nat n).

(** [!v] is [negb (truthy v)]: the falsy values are undefined, null, false,
    +0, -0, NaN and the empty string. *)
Definition truthy (v : value) : bool :=
  match v with
  | VUndefined | VNull => false
  | VBool b => b
  | VNum n => negb (is_zero n || is_nan n)
  | VStr s => negb (String.eqb s "")
  | VArr _ | VObj _ => true
  end.

(** [a || b] *)
Definition or_else (a b : value) : value := if truthy a then a else b.

(** *** Objects as ordered association lists *)

Fixpoint obj_lookup (k : string) (fs : list (string * value)) : option value :=
  match fs with
  | [] => None
  | (k', v) :: rest => if String.eqb k k' then Some v else obj_lookup k rest
  end.

Definition has_own (k : string) (fs : list (string * value)) : bool :=
  match obj_lookup k fs with Some _ => true | None => false end.

(** Defining a property: an existing key keeps its place, a new one goes
    last. *)
Fixpoint obj_set (k : string) (v : value) (fs : list (string * value))
  : list (string * value) :=
  match fs with
  | [] => [(k, v)]
  | (k', v') :: rest =>
      if String.eqb k k' then (k, v) :: rest else (k', v') :: obj_set k v rest
  end.

(** [{ ...base, ...more }] *)
Definition obj_spread (base more : list (string * value)) : list (string * value) :=
  fold_left (fun acc kv => obj_set kv.1 kv.2 acc) more base.

(** Reading the property [k] of a value that is neither undefined nor null.
    The handlers only read fixed identifier keys, none of which is an array
    index or a method of a built-in prototype; so an array or a string has
    [length] and nothing else, and a boolean or a number has nothing. *)
Definition get_prop (v : value) (k : string) : value :=
  match v with
  | VObj fs => default VUndefined (obj_lookup k fs)
  | VArr l => if String.eqb k "length" then VNum (float_of_nat (length l)) else VUndefined
  | VStr s => if String.eqb k "length" then VNum (float_of_nat (String.length s)) else VUndefined
  | _ => VUndefined
  end.

(** [v.k], which throws on undefined and null. *)
Definition get (v : value) (k : string) : completion value :=
  match v with
  | VUndefined | VNull => Abrupt (type_error "Cannot read properties of undefined or null")
  | _ => Normal (get_prop v k)
  end.

(** *** The parts of the runtime left abstract *)

Class Runtime : Type := {
  (** Number::toString *)
  number_to_string : float -> string;
  (** Number.prototype.toLocaleString() in the host's default locale *)
  number_to_locale_string : float -> string;
  (** StringToNumber *)
  string_to_number : string -> float;
  (** Date.prototype.toISOString, from the time value in milliseconds *)
  date_to_iso : Z -> string;
  (** the time value of [new Date(v)], [None] for an Invalid Date (NaN);
      converting an object to a primitive may throw *)
  date_time_value : value -> completion (option Z);
  (** process.env.GMAIL_ADDRESS, when set *)
  gmail_address : option string;
  (** [res.status(code).send(body)] for a status or a body on which the
      versions of Express differ (see [Part000.status_send]): the status
      and the body that go out, [None] when the call throws *)
  response_sent : value -> value -> option (value * value)
}.

Section Coercions.
Context {rt : Runtime}.

(** ToString, as a template literal applies it.  An array is joined with
    commas, undefined and null elements giving the empty string.  A parsed
    object prints as [[object Object]] through Object.prototype.toString,
    unless it has an own [toString] key: that value is not callable, and
    [valueOf] then cannot produce a primitive either, so the conversion
    throws. *)
Fixpoint to_string (v : value) : completion string :=
  match v with
  | VUndefined => Normal "undefined"
  | VNull => Normal "null"
  | VBool b => Normal (if b then "true" else "false")
  | VNum n => Normal (number_to_string n)
  | VStr s => Normal s
  | VArr l =>
      (fix join (l : list value) : completion string :=
         match l with
         | [] => Normal ""
         | x :: rest =>
             cbind (match x with
                    | VUndefined | VNull => Normal ""
                    | _ => to_string x
                    end)
               (fun s =>
                  match rest with
                  | [] => Normal s
                  | _ => cbind (join rest) (fun t => Normal (s +:+ "," +:+ t))
                  end)
         end) l
  | VObj fs =>
      if has_own "toString" fs
      then Abrupt (type_error "Cannot convert object to primitive value")
      else Normal "[object Object]"
  end.

(** [v.toLocaleString()] *)
Fixpoint to_locale_string (v : value) : completion string :=
  match v with
  | VUndefined | VNull =>
      Abrupt (type_error "Cannot read properties of undefined or null")
  | VBool b => Normal (if b then "true" else "false")
  | VNum n => Normal (number_to_locale_string n)
  | VStr s => Normal s
  | VArr l =>
      (fix join (l : list value) : completion string :=
         match l with
         | [] => Normal ""
         | x :: rest =>
             cbind (match x with
                    | VUndefined | VNull => Normal ""
                    | _ => to_locale_string x
                    end)
               (fun s =>
                  match rest with
                  | [] => Normal s
                  | _ => cbind (join rest) (fun t => Normal (s +:+ "," +:+ t))
                  end)
         end) l
  | VObj fs =>
      if has_own "toLocaleString" fs
      then Abrupt (type_error "toLocaleString is not a function")
      else if has_own "toString" fs
      then Abrupt (type_error "toString is not a function")
      else Normal "[object Object]"
  end.

(** ToNumber, as [Number(v)] and [v * 100] apply it.  An array or object
    goes through ToPrimitive with hint number: [valueOf] gives back the
    object itself, so the string conversion decides. *)
Definition to_number (v : value) : completion float :=
  match v with
  | VUndefined => Normal nan
  | VNull => Normal PrimFloat.zero
  | VBool b => Normal (if b then PrimFloat.one else PrimFloat.zero)
  | VNum n => Normal n
  | VStr s => Normal (string_to_number s)
  | VArr _ | VObj _ => cbind (to_string v) (fun s => Normal (string_to_number s))
  end.

End Coercions.

(** Math.round on a double: the nearest integer, ties towards +infinity;
    an integral, infinite or NaN argument is returned as it is, and a
    result of zero keeps the sign of the argument. *)
Definition math_round (x : float) : float :=
  match Prim2SF x with
  | S754_finite s m e =>
      if 0 <=? e then x
      else
        let q := 2 ^ (- e) in
        let n := ((if s then Z.neg m else Z.pos m) * 2 + q) / (2 * q) in
        if n =? 0 then (if s then neg_zero else PrimFloat.zero) else float_of_Z n
  | _ => x
  end.

(** The global [isNaN] on a number. *)
Definition isNaN (n : float) : bool := is_nan n.

(** The integer a double is, when [Number.isInteger] holds of it. *)
Definition integer_value (x : float) : option Z :=
  match Prim2SF x with
  | S754_zero _ => Some 0
  | S754_finite s m e =>
      let sign z := if s then - z else z in
      if 0 <=? e then Some (sign (Z.pos m * 2 ^ e))
      else if Z.pos m mod 2 ^ (- e) =? 0 then Some (sign (Z.pos m / 2 ^ (- e)))
      else None
  | _ => None
  end.

(** ToInt32, as [x | 0] applies it to a number: NaN and the infinities
    give 0, anything else is truncated towards zero and wrapped into
    -2^31 .. 2^31 - 1. *)
Definition to_int32 (x : float) : Z :=
  match Prim2SF x with
  | S754_finite s m e =>
      let magnitude := if 0 <=? e then Z.pos m * 2 ^ e else Z.pos m / 2 ^ (- e) in
      ((if s then - magnitude else magnitude) + 2 ^ 31) mod 2 ^ 32 - 2 ^ 31
  | _ => 0
  end.

End JS.
Export JS.

(** ** Capabilities and handler programs *)

Module Cap.

(** The SDK calls the handlers make.  A Firestore query snapshot is the list
    of its documents, each an identifier with the fields of [doc.data()]. *)
Inductive call : Type :=
| DbAdd (collection : string) (data : value)
| DbUpdate (collection id : string) (patch : value)
| DbDelete (collection id : string)
| DbWhereGet (collection field : string) (equal_to : string)
| DbGet (collection : string)
| AuthGetUser (uid : value)
| SendMail (mailOptions : value)
| OrdersCreate (options : value)
| DateNow.

(** How a promise settles. *)
Inductive settled (A : Type) : Type :=
| Resolved (a : A)
| Rejected (reason : value).
Arguments Resolved {A} a.
Arguments Rejected {A} reason.

Definition snapshot : Type := list (string * list (string * value)).

Definition answer (c : call) : Type :=
  match c with
  | DbAdd _ _ => settled string
  | DbUpdate _ _ _ | DbDelete _ _ => settled unit
  | DbWhereGet _ _ _ | DbGet _ => settled snapshot
  | AuthGetUser _ => settled value
  | SendMail _ => settled unit
  | OrdersCreate _ => settled value
  | DateNow => Z
  end.

(** The body of an async function: it returns, throws, or makes a call and
    goes on with the answer. *)
Inductive prog (A : Type) : Type :=
| Ret (a : A)
| Throw (thrown : value)
| Do (c : call) (k : answer c -> prog A).
Arguments Ret {A} a.
Arguments Throw {A} thrown.
Arguments Do {A} c k.

Fixpoint bind {A B} (m : prog A) (f : A -> prog B) : prog B :=
  match m with
  | Ret a => f a
  | Throw e => Throw e
  | Do c k => Do c (fun r => bind (k r) f)
  end.

#[export] Instance prog_ret : MRet prog := fun A a => Ret a.
#[export] Instance prog_bind : MBind prog := fun A B f m => bind m f.

(** [try { m } catch (e) { h e }] *)
Fixpoint try_catch {A} (m : prog A) (h : value -> prog A) : prog A :=
  match m with
  | Ret a => Ret a
  | Throw e => h e
  | Do c k => Do c (fun r => try_catch (k r) h)
  end.

Definition lift {A} (m : completion A) : prog A :=
  match m with
  | Normal a => Ret a
  | Abrupt e => Throw e
  end.

(** [await] on the promise of a call: a rejection is thrown. *)
Definition settle {A} (r : settled A) : prog A :=
  match r with
  | Resolved a => Ret a
  | Rejected e => Throw e
  end.

Definition db_add (collection : string) (data : value) : prog string :=
  Do (DbAdd collection data) settle.
Definition db_update (collection id : string) (patch : value) : prog unit :=
  Do (DbUpdate collection id patch) settle.
Definition db_delete (collection id : string) : prog unit :=
  Do (DbDelete collection id) settle.
Definition db_where_get (collection field equal_to : string) : prog snapshot :=
  Do (DbWhereGet collection field equal_to) settle.
Definition db_get (collection : string) : prog snapshot :=
  Do (DbGet collection) settle.
Definition auth_get_user (uid : value) : prog value :=
  Do (AuthGetUser uid) settle.
Definition send_mail (mailOptions : value) : prog unit :=
  Do (SendMail mailOptions) settle.
Definition orders_create (options : value) : prog value :=
  Do (OrdersCreate options) settle.
Definition date_now : prog Z := Do DateNow Ret.

(** What [res.status(..).send(..)] or [res.json(..)] sent.  The status is
    the value handed to [res.status], 200 when the handler sets none. *)
Record response : Type := Response { status : value; body : value }.

Definition send (code : Z) (payload : value) : response :=
  Response (VNum (float_of_Z code)) payload.

(** *** Running a program against an environment *)

(** An environment answers every call from its state. *)
Definition env (S : Type) : Type := forall c : call, S -> answer c * S.

Inductive outcome (A : Type) : Type :=
| Returned (a : A)
| Uncaught (thrown : value).
Arguments Returned {A} a.
Arguments Uncaught {A} thrown.

Record run_result (S A : Type) : Type :=
  RunResult { result : outcome A; final : S; trace : list call }.
Arguments RunResult {S A} result final trace.
Arguments result {S A} r.
Arguments final {S A} r.
Arguments trace {S A} r.

Fixpoint run {S A} (e : env S) (p : prog A) (s : S) : run_result S A :=
  match p with
  | Ret a => RunResult (Returned a) s []
  | Throw x => RunResult (Uncaught x) s []
  | Do c k =>
      let r := run e (k (e c s).1) (e c s).2 in
      RunResult (result r) (final r) (c :: trace r)
  end.

Definition is_send_mail (c : call) : bool :=
  match c with SendMail _ => true | _ => false end.

End Cap.
Export Cap.

(** ** An in-memory model of the document store and the other services *)

Module Firestore.

(** The Admin SDK refuses [undefined] anywhere in the data it is given
    ([ignoreUndefinedProperties] is not set by the application). *)
Fixpoint has_undefined (v : value) : bool :=
  match v with
  | VUndefined => true
  | VArr l => existsb has_undefined l
  | VObj fs => existsb (fun kv => has_undefined kv.2) fs
  | _ => false
  end.

(** A key of an update is a field path; dots separate its segments. *)
Fixpoint field_path (s : string) : list string :=
  match s with
  | EmptyString => [""]
  | String c rest =>
      if Ascii.eqb c "."%char then "" :: field_path rest
      else match field_path rest with
           | seg :: segs => String c seg :: segs
           | [] => [String c ""]
           end
  end.

Fixpoint set_path (path : list string) (v : value) (fs : list (string * value))
  : list (string * value) :=
  match path with
  | [] => fs
  | [k] => obj_set k v fs
  | k :: rest =>
      let sub := match obj_lookup k fs with Some (VObj sub) => sub | _ => [] end in
      obj_set k (VObj (set_path rest v sub)) fs
  end.

Definition apply_patch (patch doc : list (string * value)) : list (string * value) :=
  fold_left (fun d kv => set_path (field_path kv.1) kv.2 d) patch doc.

(** A key of an update has to match [/^[^*~/[\]]+$/]. *)
Definition field_char (c : ascii) : bool :=
  negb (existsb (Ascii.eqb c) ["*"; "~"; "/"; "["; "]"]%char).

Fixpoint is_prefix (p q : list string) : bool :=
  match p, q with
  | [], _ => true
  | _ :: _, [] => false
  | x :: p', y :: q' => String.eqb x y && is_prefix p' q'
  end.

(** No field path of an update may be a prefix of another one. *)
Fixpoint conflict_free (paths : list (list string)) : bool :=
  match paths with
  | [] => true
  | p :: rest =>
      forallb (fun q => negb (is_prefix p q || is_prefix q p)) rest && conflict_free rest
  end.

(** What the client checks before it sends an update: the patch is not
    empty and holds no [undefined]; no key has one of the characters
    [* ~ / [ ]], starts or ends with a dot or has two dots in a row; no
    field is named twice.  Limits on size and depth are not modelled. *)
Definition valid_patch (patch : list (string * value)) : bool :=
  negb (has_undefined (VObj patch))
  && negb (bool_decide (patch = []))
  && forallb (fun kv => forallb field_char (list_ascii_of_string kv.1)
                        && forallb (fun seg => negb (String.eqb seg "")) (field_path kv.1))
       patch
  && conflict_free ((fun kv => field_path kv.1) <$> patch).

Definition not_found : value :=
  VObj [("code", VNum 0x5p+0); ("details", VStr "No document to update")].

Definition invalid_argument : value :=
  VObj [("message", VStr "Value for argument is not a valid Firestore document.")].

(** *** Document paths

    [db.collection(name).doc(id)] reads [id] as a path relative to the
    collection: its segments are separated by slashes. *)

(** [s.split(sep)] for a separator of one character. *)
Fixpoint split_on (sep : ascii) (s : string) : list string :=
  match s with
  | EmptyString => [""]
  | String c rest =>
      if Ascii.eqb c sep then "" :: split_on sep rest
      else match split_on sep rest with
           | seg :: segs => String c seg :: segs
           | [] => [String c ""]
           end
  end.

(** The segments of a resource path: a slash in front or at the end is
    allowed, so the empty pieces are dropped. *)
Definition segments (path : string) : list string :=
  List.filter (fun seg => negb (String.eqb seg "")) (split_on "/" path).

(** [path.indexOf('//') >= 0] *)
Fixpoint double_slash (s : string) : bool :=
  match s with
  | String a (String b _ as rest) =>
      (Ascii.eqb a "/" && Ascii.eqb b "/") || double_slash rest
  | _ => false
  end.

Fixpoint split_last (path : list string) : option (list string * string) :=
  match path with
  | [] => None
  | [name] => Some ([], name)
  | seg :: rest =>
      match split_last rest with
      | Some (parent, name) => Some (seg :: parent, name)
      | None => None
      end
  end.

(** The document [db.collection(collection).doc(id)] refers to: the
    segments of its collection and its own name.  The client throws when
    [id] is empty or contains two slashes in a row, and when the whole path
    has an odd number of segments, which is a collection and no document. *)
Definition doc_ref (collection id : string) : option (list string * string) :=
  let path := (segments collection ++ segments id)%list in
  if String.eqb id "" || double_slash id || Nat.odd (length path) then None
  else split_last path.

(** The names the backend reserves: those of the form [__x__]. *)
Definition reserved_id (s : string) : bool :=
  let cs := list_ascii_of_string s in
  (4 <=? length cs)%nat
  && forallb (Ascii.eqb "_") (take 2 cs)
  && forallb (Ascii.eqb "_") (take 2 (rev cs)).

Definition slash_free (s : string) : bool :=
  forallb (fun c => negb (Ascii.eqb c "/")) (list_ascii_of_string s).

(** What the backend accepts as the name of a collection or of a document:
    not empty, at most 1500 bytes, without a slash, neither [.] nor [..],
    and not reserved. *)
Definition resource_id (s : string) : bool :=
  negb (String.eqb s "")
  && (String.length s <=? 1500)%nat
  && slash_free s
  && negb (String.eqb s ".") && negb (String.eqb s "..")
  && negb (reserved_id s).

Definition invalid_path : value :=
  VObj [("message", VStr "Value for argument documentPath must point to a document.")].

(** The collection a database call addresses, as the segments of its path;
    none when the client refuses the path. *)
Definition collection_of (c : call) : option (list string) :=
  match c with
  | DbAdd n _ | DbWhereGet n _ _ | DbGet n => Some (segments n)
  | DbUpdate n id _ | DbDelete n id => fst <$> doc_ref n id
  | _ => None
  end.

(** The state of the outside world: the collections of the database (each
    a finite map from document identifier to fields), the clock, the
    accounts Firebase Auth knows, the mail relay with what it accepted, and
    the payment gateway. *)
Record world : Type := World {
  db : gmap string (gmap string (list (string * value)));
  clock : Z;
  accounts : value -> settled value;
  relay : value -> settled unit;
  outbox : list value;
  gateway : value -> settled value
}.

Definition docs_of (w : world) (collection : string) : gmap string (list (string * value)) :=
  default ∅ (db w !! collection).

Definition with_docs (w : world) (collection : string)
    (docs : gmap string (list (string * value))) : world :=
  World (<[collection := docs]> (db w)) (clock w) (accounts w) (relay w) (outbox w) (gateway w).

Definition field_equals (field equal_to : string) (fields : list (string * value)) : bool :=
  match obj_lookup field fields with
  | Some (VStr s) => String.eqb s equal_to
  | _ => false
  end.

(** The store proper, every collection under its path and every document
    under its name: [add] stores the data under a fresh identifier;
    [update] merges a patch into an existing document and fails when there
    is none; [delete] succeeds whether or not the document exists; the
    reads never fail.  Identifiers are taken as names here; [serve_paths]
    below puts the client's reading of them as paths in front. *)
Definition serve : env world := fun c w =>
  match c return answer c * world with
  | DbAdd collection data =>
      match data with
      | VObj fields =>
          if has_undefined data then (Rejected invalid_argument, w)
          else
            let docs := docs_of w collection in
            let id := fresh (dom docs) in
            (Resolved id, with_docs w collection (<[id := fields]> docs))
      | _ => (Rejected invalid_argument, w)
      end
  | DbUpdate collection id patch =>
      match patch with
      | VObj fields =>
          if valid_patch fields then
            match docs_of w collection !! id with
            | Some doc =>
                (Resolved (), with_docs w collection
                                (<[id := apply_patch fields doc]> (docs_of w collection)))
            | None => (Rejected not_found, w)
            end
          else (Rejected invalid_argument, w)
      | _ => (Rejected invalid_argument, w)
      end
  | DbDelete collection id =>
      (Resolved (), with_docs w collection (delete id (docs_of w collection)))
  | DbWhereGet collection field equal_to =>
      (Resolved (filter (fun d => field_equals field equal_to d.2 = true)
                   (map_to_list (docs_of w collection))), w)
  | DbGet collection =>
      (Resolved (map_to_list (docs_of w collection)), w)
  | AuthGetUser uid => (accounts w uid, w)
  | SendMail mailOptions =>
      match relay w mailOptions with
      | Resolved u =>
          (Resolved u,
           World (db w) (clock w) (accounts w) (relay w) (outbox w ++ [mailOptions]) (gateway w))
      | Rejected e => (Rejected e, w)
      end
  | OrdersCreate options => (gateway w options, w)
  | DateNow =>
      (clock w, World (db w) (clock w + 1) (accounts w) (relay w) (outbox w) (gateway w))
  end.

(** Where an update or a delete lands: on the document the path names, if
    the client accepts the path and the backend every name in it.  The
    limit on the length of a whole path is not modelled. *)
Definition at_document {A} (collection id : string) (w : world)
    (k : string -> string -> settled A * world) : settled A * world :=
  match doc_ref collection id with
  | Some (parent, name) =>
      if forallb resource_id (parent ++ [name])
      then k (String.concat "/" parent) name
      else (Rejected invalid_argument, w)
  | None => (Rejected invalid_path, w)
  end.

(** The store behind the client's path handling. *)
Definition serve_paths : env world := fun c w =>
  match c as c' return answer c' * world with
  | DbUpdate collection id patch =>
      at_document collection id w (fun parent name => serve (DbUpdate parent name patch) w)
  | DbDelete collection id =>
      at_document collection id w (fun parent name => serve (DbDelete parent name) w)
  | c' => serve c' w
  end.

End Firestore.
Export Firestore.

(** ** The handlers of src/index.js *)

Module Index.
Section Handlers.
Context {rt : Runtime}.

(** [!userId || !cartItems || !cartItems.length || !siteLocation]; the
    length is read only when [cartItems] is truthy. *)
Definition booking_info_missing (userId cartItems siteLocation : value) : bool :=
  negb (truthy userId)
  || negb (truthy cartItems)
  || negb (truthy (get_prop cartItems "length"))
  || negb (truthy siteLocation).

(** The document handed to [db.collection('bookings').add]. *)
Definition booking_doc (userId cartItems totalPrice paymentDetails siteLocation : value)
    (now : Z) : value :=
  VObj [("clientId", userId);
        ("items", cartItems);
        ("totalAmount", totalPrice);
        ("status", VStr "Confirmed");
        ("bookingDate", VStr (date_to_iso now));
        ("paymentDetails", or_else paymentDetails (VObj []));
        ("siteLocation", siteLocation)].

(** [cartItems.map(item => `<li>${item.name} (Quantity: ${item.quantity})</li>`).join('')];
    only an array has a callable [map]. *)
Definition item_line (item : value) : completion string :=
  name ← get item "name";
  name_text ← to_string name;
  quantity ← get item "quantity";
  quantity_text ← to_string quantity;
  mret ("<li>" +:+ name_text +:+ " (Quantity: " +:+ quantity_text +:+ ")</li>").

Fixpoint item_lines (items : list value) : completion string :=
  match items with
  | [] => mret ""
  | item :: rest =>
      line ← item_line item;
      more ← item_lines rest;
      mret (line +:+ more)
  end.

Definition items_list (cartItems : value) : completion string :=
  match cartItems with
  | VArr items => item_lines items
  | _ => Abrupt (type_error "cartItems.map is not a function")
  end.

Definition nl : string := String (ascii_of_nat 10) "".
Definition indent (n : nat) : string := String.concat "" (replicate n " ").

Definition mail_options (bookingId : string) (userEmail : value) (itemsList : string)
    (totalPrice siteLocation : value) : completion value :=
  let sender := "BuildConnect <" +:+ default "undefined" gmail_address +:+ ">" in
  let subject :=
    "Your BuildConnect Booking Confirmation (#" +:+ substring 0 8 bookingId +:+ ")" in
  total ← to_locale_string totalPrice;
  address ← get siteLocation "address"; address_text ← to_string address;
  area ← get siteLocation "area"; area_text ← to_string area;
  city ← get siteLocation "city"; city_text ← to_string city;
  pincode ← get siteLocation "pincode"; pincode_text ← to_string pincode;
  contactNo ← get siteLocation "contactNo"; contact_text ← to_string contactNo;
  let html :=
    nl +:+ indent 10 +:+ "<h1>Booking Confirmed!</h1>" +:+
    nl +:+ indent 10 +:+ "<p>Thank you for your order with BuildConnect.</p>" +:+
    nl +:+ indent 10 +:+ "<h3>Order Summary:</h3>" +:+
    nl +:+ indent 10 +:+ "<ul>" +:+
    nl +:+ indent 12 +:+ itemsList +:+
    nl +:+ indent 10 +:+ "</ul>" +:+
    nl +:+ indent 10 +:+ "<h3>Total Amount: ₹" +:+ total +:+ "</h3>" +:+
    nl +:+ indent 10 +:+ "<p>Your items will be delivered to:</p>" +:+
    nl +:+ indent 10 +:+ "<p>" +:+
    nl +:+ indent 12 +:+ address_text +:+ ",<br>" +:+
    nl +:+ indent 12 +:+ area_text +:+ ",<br>" +:+
    nl +:+ indent 12 +:+ city_text +:+ " - " +:+ pincode_text +:+
    nl +:+ indent 10 +:+ "</p>" +:+
    nl +:+ indent 10 +:+ "<p>Contact No: " +:+ contact_text +:+ "</p>" +:+
    nl +:+ indent 8 in
  mret (VObj [("from", VStr sender); ("to", userEmail);
              ("subject", VStr subject); ("html", VStr html)]).

(** What the inner [try] block computes between the lookup and the send.
    The first log line prints [`... ${userEmail}`], a string conversion. *)
Definition confirmation_mail (bookingId : string)
    (user cartItems totalPrice siteLocation : value) : completion value :=
  userEmail ← get user "email";
  _ ← to_string userEmail;
  itemsList ← items_list cartItems;
  mail_options bookingId userEmail itemsList totalPrice siteLocation.

(** The inner [try] block of create-booking: look the account up, build the
    message, hand it to the relay. *)
Definition send_confirmation (bookingId : string)
    (userId cartItems totalPrice siteLocation : value) : prog unit :=
  user ← auth_get_user userId;
  mailOptions ← lift (confirmation_mail bookingId user cartItems totalPrice siteLocation);
  send_mail mailOptions.

(** POST /api/create-booking *)
Definition create_booking (body : value) : prog response :=
  try_catch
    (userId ← lift (get body "userId");
     cartItems ← lift (get body "cartItems");
     totalPrice ← lift (get body "totalPrice");
     paymentDetails ← lift (get body "paymentDetails");
     siteLocation ← lift (get body "siteLocation");
     if booking_info_missing userId cartItems siteLocation
     then mret (send 400 (VObj [("error", VStr "Missing booking information.")]))
     else
       now ← date_now;
       bookingId ← db_add "bookings"
         (booking_doc userId cartItems totalPrice paymentDetails siteLocation now);
       _ ← try_catch
             (send_confirmation bookingId userId cartItems totalPrice siteLocation)
             (fun emailError => mret ());
       mret (send 201 (VObj [("message", VStr "Booking created successfully!");
                             ("bookingId", VStr bookingId)])))
    (fun error => mret (send 500 (VObj [("error", VStr "Failed to create booking.")]))).

(** [doc => ({ id: doc.id, ...doc.data() })] *)
Definition with_id (doc : string * list (string * value)) : value :=
  VObj (obj_spread [("id", VStr doc.1)] doc.2).

(** [(a, b) => new Date(b.bookingDate) - new Date(a.bookingDate)].  Time
    values are integers of magnitude at most 8.64e15, so the sign of the
    double difference is the sign of the integer difference; [None] stands
    for NaN. *)
Definition by_booking_date (a b : value) : completion (option Z) :=
  later ← date_time_value (get_prop b "bookingDate");
  earlier ← date_time_value (get_prop a "bookingDate");
  mret (match later, earlier with
        | Some tb, Some ta => Some (tb - ta)
        | _, _ => None
        end).

(** Array.prototype.sort with a comparator, as a stable insertion sort: an
    element moves behind another only when the comparator is positive; NaN
    counts as zero. *)
Definition comes_after (c : option Z) : bool :=
  match c with Some d => 0 <? d | None => false end.

Fixpoint insert_sorted (compare : value -> value -> completion (option Z))
    (x : value) (l : list value) : completion (list value) :=
  match l with
  | [] => mret [x]
  | y :: rest =>
      c ← compare x y;
      if comes_after c
      then rest' ← insert_sorted compare x rest; mret (y :: rest')
      else mret (x :: y :: rest)
  end.

Fixpoint array_sort (compare : value -> value -> completion (option Z))
    (l : list value) : completion (list value) :=
  match l with
  | [] => mret []
  | x :: rest =>
      rest' ← array_sort compare rest;
      insert_sorted compare x rest'
  end.

(** GET /api/my-bookings/:userId *)
Definition my_bookings (userId : string) : prog response :=
  try_catch
    (snapshot ← db_where_get "bookings" "clientId" userId;
     match snapshot with
     | [] => mret (send 200 (VArr []))
     | _ =>
         bookingsList ← lift (array_sort by_booking_date (with_id <$> snapshot));
         mret (send 200 (VArr bookingsList))
     end)
    (fun error => mret (send 500 (VObj [("error", VStr "Failed to fetch bookings.")]))).

(** PUT /api/bookings/:bookingId/cancel *)
Definition cancel_booking (bookingId : string) : prog response :=
  try_catch
    (_ ← db_update "bookings" bookingId (VObj [("status", VStr "Cancelled")]);
     mret (send 200 (VObj [("message", VStr "Booking cancelled successfully!")])))
    (fun error => mret (send 500 (VObj [("error", VStr "Failed to cancel booking.")]))).

(** The receipt [`receipt_order_${new Date().getTime()}`]: a time value
    prints as its decimal digits. *)
Definition receipt (now : Z) : string := "receipt_order_" +:+ pretty now.

Definition order_options (amount : float) (now : Z) : value :=
  VObj [("amount", VNum amount); ("currency", VStr "INR"); ("receipt", VStr (receipt now))].

(** POST /api/create-order: no check of the amount in this snapshot. *)
Definition create_order (body : value) : prog response :=
  try_catch
    (amount ← lift (get body "amount");
     n ← lift (to_number amount);
     now ← date_now;
     order ← orders_create (order_options (n * 0x64p+0) now);
     if negb (truthy order)
     then mret (send 500 (VStr "Error creating order"))
     else mret (send 200 order))
    (fun error => mret (send 500 (VStr "Something went wrong"))).

Definition listing_collections : list string := ["equipment"; "materials"; "contractors"].

(** [listing_collections.includes(collectionName)] *)
Definition includes (names : list string) (name : string) : bool :=
  existsb (String.eqb name) names.

(** PUT /api/listing/:collectionName/:listingId *)
Definition update_listing (collectionName listingId : string) (body : value)
  : prog response :=
  try_catch
    (if includes listing_collections collectionName
     then
       _ ← db_update collectionName listingId body;
       mret (send 200 (VObj [("message", VStr "Listing updated successfully!")]))
     else mret (send 400 (VObj [("error", VStr "Invalid collection specified.")])))
    (fun error => mret (send 500 (VObj [("error", VStr "Failed to update listing.")]))).

(** DELETE /api/listing/:collectionName/:listingId *)
Definition delete_listing (collectionName listingId : string) : prog response :=
  try_catch
    (if includes listing_collections collectionName
     then
       _ ← db_delete collectionName listingId;
       mret (send 200 (VObj [("message", VStr "Listing removed successfully!")]))
     else mret (send 400 (VObj [("error", VStr "Invalid collection specified.")])))
    (fun error => mret (send 500 (VObj [("error", VStr "Failed to remove listing.")]))).

(** [v === 'text'] *)
Definition is_text (v : value) (text : string) : bool :=
  match v with VStr s => String.eqb s text | _ => false end.

(** [!listingType || !name || !price || !merchantId] *)
Definition listing_fields_missing (listingType name price merchantId : value) : bool :=
  negb (truthy listingType) || negb (truthy name)
  || negb (truthy price) || negb (truthy merchantId).

Definition material_data (name description imageUrl merchantId unit : value)
    (price : float) : value :=
  VObj [("name", name); ("specs", description); ("pricePerUnit", VNum price);
        ("imageUrl", imageUrl); ("merchantId", merchantId); ("unit", unit);
        ("stockQuantity", VNum 0x64p+0)].

Definition contractor_data
    (name description imageUrl location merchantId rateType specialization : value)
    (price : float) : value :=
  VObj [("name", name); ("bio", description); ("rate", VNum price);
        ("profileImageUrl", imageUrl); ("location", location);
        ("merchantId", merchantId); ("rateType", rateType);
        ("specialization", specialization)].

Definition equipment_data (name description imageUrl location merchantId : value)
    (price : float) : value :=
  VObj [("name", name); ("description", description); ("dailyRentalPrice", VNum price);
        ("imageUrl", imageUrl); ("location", location); ("merchantId", merchantId);
        ("category", VStr "General"); ("availabilityStatus", VStr "Available")].

Definition created (id : string) : response :=
  send 201 (VObj [("message", VStr "Listing created successfully!"); ("id", VStr id)]).

(** POST /api/add-listing *)
Definition add_listing (body : value) : prog response :=
  try_catch
    (listingType ← lift (get body "listingType");
     name ← lift (get body "name");
     description ← lift (get body "description");
     price ← lift (get body "price");
     imageUrl ← lift (get body "imageUrl");
     location ← lift (get body "location");
     merchantId ← lift (get body "merchantId");
     rateType ← lift (get body "rateType");
     specialization ← lift (get body "specialization");
     unit ← lift (get body "unit");
     if listing_fields_missing listingType name price merchantId
     then mret (send 400 (VObj [("error", VStr "Missing required fields.")]))
     else if is_text listingType "Equipment" then
       n ← lift (to_number price);
       id ← db_add "equipment"
              (equipment_data name description imageUrl location merchantId n);
       mret (created id)
     else if is_text listingType "Material" then
       n ← lift (to_number price);
       id ← db_add "materials" (material_data name description imageUrl merchantId unit n);
       mret (created id)
     else if is_text listingType "Contractor" then
       n ← lift (to_number price);
       id ← db_add "contractors"
              (contractor_data name description imageUrl location merchantId
                 rateType specialization n);
       mret (created id)
     else mret (send 400 (VObj [("error", VStr "Invalid listing type.")])))
    (fun error => mret (send 500 (VObj [("error", VStr "Failed to create listing.")]))).

(** GET /api/materials *)
Definition get_materials : prog response :=
  try_catch
    (snapshot ← db_get "materials";
     mret (send 200 (VArr (with_id <$> snapshot))))
    (fun error => mret (send 500 (VStr "Something went wrong"))).

(** [doc => ({ id: doc.id, collection: 'name', ...doc.data() })] *)
Definition tagged (collection : string) (doc : string * list (string * value)) : value :=
  VObj (obj_spread [("id", VStr doc.1); ("collection", VStr collection)] doc.2).

(** GET /api/my-listings/:userId.  The three queries are started one after
    the other, before any of them is awaited; [Promise.all] then rejects as
    soon as one of them does.  The handler does not look at the error, so
    which rejection wins does not show. *)
Definition my_listings (userId : string) : prog response :=
  try_catch
    (Do (DbWhereGet "equipment" "merchantId" userId) (λ eq,
     Do (DbWhereGet "materials" "merchantId" userId) (λ mat,
     Do (DbWhereGet "contractors" "merchantId" userId) (λ con,
       eqSnap ← settle eq;
       matSnap ← settle mat;
       conSnap ← settle con;
       mret (send 200 (VArr ((tagged "equipment" <$> eqSnap)
                             ++ (tagged "materials" <$> matSnap)
                             ++ (tagged "contractors" <$> conSnap))%list))))))
    (fun error => mret (send 500 (VObj [("error", VStr "Failed to fetch listings.")]))).

(** GET /api/equipment *)
Definition get_equipment : prog response :=
  try_catch
    (snapshot ← db_get "equipment";
     mret (send 200 (VArr (with_id <$> snapshot))))
    (fun error => mret (send 500 (VStr "Something went wrong"))).

(** GET /api/contractors *)
Definition get_contractors : prog response :=
  try_catch
    (snapshot ← db_get "contractors";
     mret (send 200 (VArr (with_id <$> snapshot))))
    (fun error => mret (send 500 (VStr "Something went wrong"))).

End Handlers.
End Index.

(** ** src/unnamed/part_000: the create-order handler

    The rest of that file repeats src/index.js up to logging, the layout of
    the email text and the Equipment fields of add-listing, which are those
    of part_001. *)

Module Part000.
Section Handlers.
Context {rt : Runtime}.

(** [typeof amount !== 'number' || amount < 1 || isNaN(amount)]; the
    comparisons are reached only for a number. *)
Definition invalid_amount (amount : value) : bool :=
  match amount with
  | VNum n => (n <? 0x1p+0)%float || isNaN n
  | _ => true
  end.

(** [Math.round(amount * 100)], on the number [amount] is *)
Definition amount_in_paise (n : float) : float := math_round (n * 0x64p+0).

(** An HTTP error status: an integer from 400 to 599. *)
Definition error_status (code : value) : bool :=
  match code with
  | VNum n =>
      match integer_value n with
      | Some z => (400 <=? z) && (z <=? 599)
      | None => false
      end
  | _ => false
  end.

(** Whether Node can write the status: [code | 0] lies between 100 and
    999. *)
Definition writable_status (code : value) : bool :=
  match to_number code with
  | Normal n => (100 <=? to_int32 n) && (to_int32 n <=? 999)
  | Abrupt _ => false
  end.

Definition invalid_status : value :=
  VObj [("name", VStr "RangeError"); ("message", VStr "Invalid status code")].

(** [res.status(code).send(body)] where [code] and [body] come from a
    thrown value; everywhere else the status is a literal and the body an
    object or a string, which always go out.  Express 5 throws in
    [res.status] unless the code is an integer between 100 and 999;
    Express 4 keeps any code, and Node throws when it writes the head
    unless [code | 0] lies in that range.  So an HTTP error status always
    goes out with the body, and a code that Node cannot write never does;
    between the two the version decides.  It also decides for a body that
    is a number, which Express 4 reads as the status. *)
Definition status_send (code body : value) : completion response :=
  let unsettled :=
    match response_sent code body with
    | Some (code', body') => Normal (Response code' body')
    | None => Abrupt invalid_status
    end in
  match body with
  | VNum _ => unsettled
  | _ =>
      if error_status code then Normal (Response code body)
      else if writable_status code then unsettled
      else Abrupt invalid_status
  end.

(** The [catch (razorpayError)] block: both fields are read for the log,
    then [res.status(razorpayError.statusCode || 500).send(razorpayError.error)]. *)
Definition surface_error (razorpayError : value) : prog response :=
  statusCode ← lift (get razorpayError "statusCode");
  error ← lift (get razorpayError "error");
  lift (status_send (or_else statusCode (VNum (float_of_Z 500))) error).

(** POST /api/create-order.  The first debug line prints
    [`... ${amount}`] before the check, which converts whatever was
    received to a string. *)
Definition create_order (body : value) : prog response :=
  try_catch
    (amount ← lift (get body "amount");
     _ ← lift (to_string amount);
     if invalid_amount amount
     then mret (send 400 (VObj [("error", VStr "Invalid amount for payment.")]))
     else
       n ← lift (to_number amount);
       now ← date_now;
       try_catch
         (order ← orders_create (Index.order_options (amount_in_paise n) now);
          if negb (truthy order)
          then mret (send 500 (VStr "Error creating order"))
          else mret (send 200 order))
         surface_error)
    (fun error => mret (send 500 (VStr "An unexpected error occurred on the server."))).

End Handlers.
End Part000.

(** ** src/unnamed/part_001: the handlers that differ from src/index.js *)

Module Part001.
Section Handlers.
Context {rt : Runtime}.

(** POST /api/create-booking, with the email logic removed. *)
Definition create_booking (body : value) : prog response :=
  try_catch
    (userId ← lift (get body "userId");
     cartItems ← lift (get body "cartItems");
     totalPrice ← lift (get body "totalPrice");
     paymentDetails ← lift (get body "paymentDetails");
     siteLocation ← lift (get body "siteLocation");
     if Index.booking_info_missing userId cartItems siteLocation
     then mret (send 400 (VObj [("error", VStr "Missing booking information.")]))
     else
       now ← date_now;
       bookingId ← db_add "bookings"
         (Index.booking_doc userId cartItems totalPrice paymentDetails siteLocation now);
       mret (send 201 (VObj [("message", VStr "Booking created successfully!");
                             ("bookingId", VStr bookingId)])))
    (fun error => mret (send 500 (VObj [("error", VStr "Failed to create booking.")]))).

(** POST /api/create-order *)
Definition create_order (body : value) : prog response :=
  try_catch
    (amount ← lift (get body "amount");
     if Part000.invalid_amount amount
     then mret (send 400 (VObj [("error", VStr "Invalid amount for payment.")]))
     else
       n ← lift (to_number amount);
       now ← date_now;
       order ← orders_create (Index.order_options (Part000.amount_in_paise n) now);
       if negb (truthy order)
       then mret (send 500 (VStr "Error creating order"))
       else mret (send 200 order))
    (fun error => mret (send 500 (VStr "Something went wrong with Razorpay"))).

Definition equipment_data (name description imageUrl location merchantId rateType : value)
    (price : float) : value :=
  VObj [("name", name); ("description", description); ("rate", VNum price);
        ("rateType", rateType); ("imageUrl", imageUrl); ("location", location);
        ("merchantId", merchantId);
        ("category", VStr "General"); ("availabilityStatus", VStr "Available")].

(** POST /api/add-listing: as in src/index.js but for the Equipment fields. *)
Definition add_listing (body : value) : prog response :=
  try_catch
    (listingType ← lift (get body "listingType");
     name ← lift (get body "name");
     description ← lift (get body "description");
     price ← lift (get body "price");
     imageUrl ← lift (get body "imageUrl");
     location ← lift (get body "location");
     merchantId ← lift (get body "merchantId");
     rateType ← lift (get body "rateType");
     specialization ← lift (get body "specialization");
     unit ← lift (get body "unit");
     if Index.listing_fields_missing listingType name price merchantId
     then mret (send 400 (VObj [("error", VStr "Missing required fields.")]))
     else if Index.is_text listingType "Equipment" then
       n ← lift (to_number price);
       id ← db_add "equipment"
              (equipment_data name description imageUrl location merchantId rateType n);
       mret (Index.created id)
     else if Index.is_text listingType "Material" then
       n ← lift (to_number price);
       id ← db_add "materials"
              (Index.material_data name description imageUrl merchantId unit n);
       mret (Index.created id)
     else if Index.is_text listingType "Contractor" then
       n ← lift (to_number price);
       id ← db_add "contractors"
              (Index.contractor_data name description imageUrl location merchantId
                 rateType specialization n);
       mret (Index.created id)
     else mret (send 400 (VObj [("error", VStr "Invalid listing type.")])))
    (fun error => mret (send 500 (VObj [("error", VStr "Failed to create listing.")]))).

End Handlers.
End Part001.

(** ** src/index.js: registration

    POST /api/register is the only handler that creates an account and
    writes a document under an identifier of its choosing; these two calls
    get a program type of their own, built like the one above. *)

Module Register.

Inductive call : Type :=
| CreateUser (properties : value)
| DocSet (collection id : string) (data : value).

(** [createUser] resolves to a user record, of which the handler reads the
    [uid], a string. *)
Definition answer (c : call) : Type :=
  match c with
  | CreateUser _ => settled string
  | DocSet _ _ _ => settled unit
  end.

Inductive prog (A : Type) : Type :=
| Ret (a : A)
| Throw (thrown : value)
| Do (c : call) (k : answer c -> prog A).
Arguments Ret {A} a.
Arguments Throw {A} thrown.
Arguments Do {A} c k.

Fixpoint bind {A B} (m : prog A) (f : A -> prog B) : prog B :=
  match m with
  | Ret a => f a
  | Throw e => Throw e
  | Do c k => Do c (fun r => bind (k r) f)
  end.

#[export] Instance prog_ret : MRet prog := fun A a => Ret a.
#[export] Instance prog_bind : MBind prog := fun A B f m => bind m f.

Fixpoint try_catch {A} (m : prog A) (h : value -> prog A) : prog A :=
  match m with
  | Ret a => Ret a
  | Throw e => h e
  | Do c k => Do c (fun r => try_catch (k r) h)
  end.

Definition lift {A} (m : completion A) : prog A :=
  match m with
  | Normal a => Ret a
  | Abrupt e => Throw e
  end.

Definition settle {A} (r : settled A) : prog A :=
  match r with
  | Resolved a => Ret a
  | Rejected e => Throw e
  end.

Definition env (S : Type) : Type := forall c : call, S -> answer c * S.

(** The outcome of a run, the state it leaves and the calls it made. *)
Fixpoint run {S A} (e : env S) (p : prog A) (s : S) : outcome A * S * list call :=
  match p with
  | Ret a => (Returned a, s, [])
  | Throw x => (Uncaught x, s, [])
  | Do c k =>
      let r := run e (k (e c s).1) (e c s).2 in
      (r.1.1, r.1.2, c :: r.2)
  end.

Definition account_properties (email password name : value) : value :=
  VObj [("email", email); ("password", password); ("displayName", name)].

Definition user_doc (name email role : value) : value :=
  VObj [("name", name); ("email", email); ("role", role)].

(** POST /api/register.  The [catch] block reads [error.message], which
    itself throws when what was thrown is null or undefined. *)
Definition register (body : value) : prog response :=
  try_catch
    (email ← lift (get body "email");
     password ← lift (get body "password");
     name ← lift (get body "name");
     role ← lift (get body "role");
     uid ← Do (CreateUser (account_properties email password name)) settle;
     _ ← Do (DocSet "users" uid (user_doc name email role)) settle;
     mret (send 201 (VObj [("message", VStr "User created successfully!");
                           ("uid", VStr uid)])))
    (fun error =>
       message ← lift (get error "message");
       mret (send 400 (VObj [("error", message)]))).

End Register.


(** ** Notions used in the statements *)

(** [express.json()] leaves an object or an array in [req.body]. *)
Definition parsed_body (body : value) : bool :=
  match body with
  | VObj _ | VArr _ => true
  | _ => false
  end.

(** How many times the mail relay was called. *)
Definition count_sends (tr : list call) : nat := length (List.filter is_send_mail tr).

(** Every call a program can make, whatever the answers, satisfies [P]. *)
Fixpoint all_calls {A} (P : call -> Prop) (p : prog A) : Prop :=
  match p with
  | Do c k => P c ∧ ∀ r, all_calls P (k r)
  | _ => True
  end.

(** The time value the comparator of my-bookings sees for an element. *)
Definition booking_time {rt : Runtime} (b : value) : option Z :=
  match date_time_value (get_prop b "bookingDate") with
  | Normal t => t
  | Abrupt _ => None
  end.

(** [a] may stand before [b] in a list that is newest first. *)
Definition not_older {rt : Runtime} (a b : value) : Prop :=
  ∃ ta tb, booking_time a = Some ta ∧ booking_time b = Some tb ∧ tb ≤ ta.

(** What a database write must look like to be a booking with its
    [paymentDetails] in place. *)
Definition stores_payment_details (paymentDetails : value) (c : call) : Prop :=
  match c with
  | DbAdd collection data =>
      collection = "bookings"
      ∧ get_prop data "paymentDetails"
        = (if truthy paymentDetails then paymentDetails else VObj [])
      ∧ get_prop data "paymentDetails" ≠ VUndefined
  | _ => True
  end.

(** The call addresses one of the three collections of listings. *)
Definition in_listing_collections (c : call) : Prop :=
  match collection_of c with
  | Some path => ∃ name, name ∈ Index.listing_collections ∧ path = [name]
  | None => True
  end.

(** The call addresses one of the three collections or a collection
    beneath one of its documents. *)
Definition beneath_listing_collections (c : call) : Prop :=
  match collection_of c with
  | Some path => ∃ name, name ∈ Index.listing_collections ∧ head path = Some name
  | None => True
  end.

(** A call that changes the database. *)
Definition is_write (c : call) : bool :=
  match c with
  | DbAdd _ _ | DbUpdate _ _ _ | DbDelete _ _ => true
  | _ => false
  end.

(** Whatever the answers, the program ends by returning: nothing it throws
    is left uncaught. *)
Fixpoint answers {A} (p : prog A) : Prop :=
  match p with
  | Ret _ => True
  | Throw _ => False
  | Do c k => ∀ r, answers (k r)
  end.

(** The routes of src/index.js that only read, and create-order in its
    three versions. *)
Definition reading_routes {rt : Runtime} (userId : string) (body : value)
  : list (prog response) :=
  [Index.my_bookings userId; Index.my_listings userId;
   Index.get_equipment; Index.get_materials; Index.get_contractors;
   Index.create_order body; Part000.create_order body; Part001.create_order body].

(** The routes that write to the database. *)
Definition writing_routes {rt : Runtime} (bookingId collectionName listingId : string)
    (body : value) : list (prog response) :=
  [Index.create_booking body; Part001.create_booking body;
   Index.cancel_booking bookingId;
   Index.update_listing collectionName listingId body;
   Index.delete_listing collectionName listingId;
   Index.add_listing body; Part001.add_listing body].

(** A value that is neither an array nor an object: its conversion to a
    string cannot throw. *)
Definition primitive (v : value) : bool :=
  match v with
  | VArr _ | VObj _ => false
  | _ => true
  end.

(** A cart item whose [name] and [quantity] can be printed. *)
Definition plain_item (item : value) : bool :=
  match item with
  | VUndefined | VNull => false
  | _ => primitive (get_prop item "name") && primitive (get_prop item "quantity")
  end.

(** A site location whose five printed fields are primitive. *)
Definition plain_site (siteLocation : value) : bool :=
  primitive (get_prop siteLocation "address")
  && primitive (get_prop siteLocation "area")
  && primitive (get_prop siteLocation "city")
  && primitive (get_prop siteLocation "pincode")
  && primitive (get_prop siteLocation "contactNo").

(** The part of create-booking in src/index.js that follows the database
    call. *)
Definition after_add {rt : Runtime} (bookingId : string)
    (userId cartItems totalPrice siteLocation : value) : prog response :=
  try_catch
    (_ ← try_catch
           (Index.send_confirmation bookingId userId cartItems totalPrice siteLocation)
           (fun emailError => mret ());
     mret (send 201 (VObj [("message", VStr "Booking created successfully!");
                           ("bookingId", VStr bookingId)])))
    (fun error => mret (send 500 (VObj [("error", VStr "Failed to create booking.")]))).

(** ** Concrete inputs *)

Module Sample.

Fixpoint digits_value (s : string) (acc : Z) : option Z :=
  match s with
  | EmptyString => Some acc
  | String c rest =>
      let d := Z.of_nat (nat_of_ascii c) - 48 in
      if (0 <=? d) && (d <=? 9) then digits_value rest (10 * acc + d) else None
  end.

(** A runtime that writes a time value as its decimal digits and reads it
    back; numbers print as a fixed mark; the response object takes the
    integers from 100 to 999 as status, as that of Express 5 does. *)
Definition runtime : Runtime := {|
  number_to_string := fun _ => "#";
  number_to_locale_string := fun _ => "#";
  string_to_number := fun s =>
    match digits_value s 0 with Some z => float_of_Z z | None => nan end;
  date_to_iso := fun t => pretty t;
  date_time_value := fun v =>
    match v with
    | VStr (String c rest) => Normal (digits_value (String c rest) 0)
    | _ => Normal None
    end;
  gmail_address := Some "shop@example.com";
  response_sent := fun code body =>
    match code with
    | VNum n =>
        match integer_value n with
        | Some z => if (100 <=? z) && (z <=? 999) then Some (code, body) else None
        | None => None
        end
    | _ => None
    end
|}.

Definition account : value := VObj [("email", VStr "client@example.com")].

Definition order : value := VObj [("id", VStr "order_1"); ("status", VStr "created")].

(** Every service answers. *)
Definition world_up (db : gmap string (gmap string (list (string * value)))) : world :=
  World db 1700000000000 (fun _ => Resolved account) (fun _ => Resolved ()) []
    (fun _ => Resolved order).

(** Firebase Auth does not know the account. *)
Definition world_lookup_down : world :=
  World ∅ 1700000000000 (fun _ => Rejected (VObj [("code", VStr "auth/user-not-found")]))
    (fun _ => Resolved ()) [] (fun _ => Resolved order).

Definition bad_request : value :=
  VObj [("statusCode", VNum 0x190p+0);
        ("error", VObj [("code", VStr "BAD_REQUEST_ERROR")])].

(** The gateway refuses the order with HTTP 400. *)
Definition world_gateway_refuses : world :=
  World ∅ 1700000000000 (fun _ => Resolved account) (fun _ => Resolved ()) []
    (fun _ => Rejected bad_request).

(** The gateway fails with a status code that is no HTTP status. *)
Definition world_gateway_confused : world :=
  World ∅ 1700000000000 (fun _ => Resolved account) (fun _ => Resolved ()) []
    (fun _ => Rejected (VObj [("statusCode", VNum 0x3e8p+0);
                              ("error", VObj [("code", VStr "BAD_REQUEST_ERROR")])])).

(** The gateway cannot be reached: the error carries no status code. *)
Definition world_gateway_unreachable : world :=
  World ∅ 1700000000000 (fun _ => Resolved account) (fun _ => Resolved ()) []
    (fun _ => Rejected (VObj [("error", VObj [("code", VStr "ECONNRESET")])])).

Definition site : value :=
  VObj [("address", VStr "12 Mill Road"); ("area", VStr "Andheri"); ("city", VStr "Mumbai");
        ("pincode", VStr "400053"); ("contactNo", VStr "9800000000")].

Definition booking_request : value :=
  VObj [("userId", VStr "u1");
        ("cartItems", VArr [VObj [("name", VStr "Drill"); ("quantity", VNum 0x2p+0)]]);
        ("totalPrice", VNum 0x1f4p+0);
        ("siteLocation", site)].

(** A request with an empty cart. *)
Definition empty_cart_request : value :=
  VObj [("userId", VStr "u1"); ("cartItems", VArr []);
        ("totalPrice", VNum 0x1f4p+0); ("siteLocation", site)].

Definition amount_request (n : float) : value := VObj [("amount", VNum n)].

Definition material_request : value :=
  VObj [("listingType", VStr "Material"); ("name", VStr "Cement");
        ("description", VStr "OPC 53 grade"); ("price", VStr "420");
        ("imageUrl", VStr "https://example.com/cement.png");
        ("merchantId", VStr "m1"); ("unit", VStr "bag")].

(** The same listing offered for nothing. *)
Definition free_material_request : value :=
  VObj [("listingType", VStr "Material"); ("name", VStr "Cement");
        ("description", VStr "OPC 53 grade"); ("price", VNum 0x0p+0);
        ("imageUrl", VStr "https://example.com/cement.png");
        ("merchantId", VStr "m1"); ("unit", VStr "bag")].

Definition equipment_request : value :=
  VObj [("listingType", VStr "Equipment"); ("name", VStr "Mixer");
        ("description", VStr "Concrete mixer, 200 l"); ("price", VStr "1500");
        ("imageUrl", VStr "https://example.com/mixer.png");
        ("location", VStr "Pune"); ("merchantId", VStr "m1");
        ("rateType", VStr "day")].

Definition contractor_request : value :=
  VObj [("listingType", VStr "Contractor"); ("name", VStr "A. Rao");
        ("description", VStr "Masonry, 12 years"); ("price", VStr "900");
        ("imageUrl", VStr "https://example.com/rao.png");
        ("location", VStr "Pune"); ("merchantId", VStr "m2");
        ("rateType", VStr "day"); ("specialization", VStr "Masonry")].

(** The listing type in lower case. *)
Definition lowercase_material_request : value :=
  VObj [("listingType", VStr "material"); ("name", VStr "Cement");
        ("description", VStr "OPC 53 grade"); ("price", VStr "420");
        ("imageUrl", VStr "https://example.com/cement.png");
        ("merchantId", VStr "m1"); ("unit", VStr "bag")].

Definition booking (clientId date status : string) : list (string * value) :=
  [("clientId", VStr clientId); ("status", VStr status); ("bookingDate", VStr date)].

(** Three bookings of two clients. *)
Definition some_bookings : gmap string (gmap string (list (string * value))) :=
  {[ "bookings" := <["b1" := booking "u1" "1000" "Confirmed"]>
                   (<["b2" := booking "u2" "2000" "Confirmed"]>
                   (<["b3" := booking "u1" "3000" "Cancelled"]> ∅)) ]}.

Definition listing (merchantId name : string) : list (string * value) :=
  [("name", VStr name); ("merchantId", VStr merchantId)].

(** Two materials of two merchants. *)
Definition some_materials : gmap string (gmap string (list (string * value))) :=
  {[ "materials" := <["c1" := listing "m1" "Cement"]> (<["c2" := listing "m2" "Sand"]> ∅) ]}.

(** A crane, and a document in a collection beneath it. *)
Definition nested_documents : gmap string (gmap string (list (string * value))) :=
  {[ "equipment" := {[ "x" := listing "m1" "Crane" ]};
     "equipment/x/users" := {[ "y" := [("name", VStr "Asha")] ]} ]}.

(** The cart is a text, not an array. *)
Definition text_cart_request : value :=
  VObj [("userId", VStr "u1"); ("cartItems", VStr "one drill");
        ("totalPrice", VNum 0x1f4p+0); ("siteLocation", site)].

Definition registration : value :=
  VObj [("email", VStr "client@example.com"); ("password", VStr "s3cret!");
        ("name", VStr "Asha"); ("role", VStr "client")].

(** The account service answers; the write of the profile is refused. *)
Definition profile_store_down : Register.env unit := fun c s =>
  match c return Register.answer c * unit with
  | Register.CreateUser _ => (Resolved "uid-1", s)
  | Register.DocSet _ _ _ =>
      (Rejected (VObj [("message", VStr "Missing or insufficient permissions.")]), s)
  end.

End Sample.


(** ** Basic facts about values and programs *)

Lemma get_parsed (body : value) (k : string) :
  parsed_body body = true → get body k = Normal (get_prop body k).
Proof. by destruct body. Qed.

(** Math.round at a few telling arguments: ties go up, also below zero;
    the double just under one half goes down; a small negative gives -0. *)
Lemma math_round_examples :
  math_round 0x1.4p+1 = 0x3p+0%float
  ∧ math_round (-0x1.4p+1) = (-0x2p+0)%float
  ∧ math_round 0x1.fffffffffffffp-2 = 0x0p+0%float
  ∧ math_round (-0x1.999999999999ap-3) = neg_zero
  ∧ math_round infinity = infinity
  ∧ math_round nan = nan.
Proof. by split_and!. Qed.

Lemma includes_spec (names : list string) (name : string) :
  Index.includes names name = bool_decide (name ∈ names).
Proof.
  unfold Index.includes. induction names as [|n names IH].
  - symmetry. apply bool_decide_eq_false_2, not_elem_of_nil.
  - cbn [existsb]. rewrite IH. destruct (String.eqb_spec name n) as [->|Hne].
    + symmetry. apply bool_decide_eq_true_2. by left.
    + apply bool_decide_ext. rewrite elem_of_cons. split; [by right | by intros [?|?]].
Qed.

Lemma all_calls_bind {A B} (P : call → Prop) (m : prog A) (f : A → prog B) :
  all_calls P m → (∀ a, all_calls P (f a)) → all_calls P (bind m f).
Proof.
  intros Hm Hf. induction m as [a|x|c k IH]; simpl in *; [done..|].
  destruct Hm as [? Hk]. split; [done|]. intros r. by apply IH.
Qed.

Lemma all_calls_try_catch {A} (P : call → Prop) (m : prog A) (h : value → prog A) :
  all_calls P m → (∀ x, all_calls P (h x)) → all_calls P (try_catch m h).
Proof.
  intros Hm Hh. induction m as [a|x|c k IH]; simpl in *; [done..|].
  destruct Hm as [? Hk]. split; [done|]. intros r. by apply IH.
Qed.

Lemma all_calls_lift {A} (P : call → Prop) (m : completion A) : all_calls P (lift m).
Proof. by destruct m. Qed.

Lemma all_calls_settle {A} (P : call → Prop) (r : settled A) : all_calls P (settle r).
Proof. by destruct r. Qed.

(** What holds of every call a program can make holds of every trace. *)
Lemma all_calls_trace {S A} (P : call → Prop) (e : env S) (p : prog A) (s : S) :
  all_calls P p → Forall P (trace (run e p s)).
Proof.
  revert s. induction p as [a|x|c k IH]; intros s Hp; simpl in *.
  - constructor.
  - constructor.
  - destruct Hp as [Hc Hk]. constructor; [done|]. by apply IH.
Qed.

Ltac step :=
  cbn [mbind mret prog_bind prog_ret bind try_catch lift settle run get
       result final trace fst snd
       db_add db_update db_delete db_where_get db_get auth_get_user send_mail
       orders_create date_now].

(** Goals [all_calls P p]: follow the structure of [p]. *)
Ltac calls :=
  repeat first
    [ progress
        cbn [all_calls mbind mret prog_bind prog_ret bind try_catch lift settle get
             db_add db_update db_delete db_where_get db_get auth_get_user send_mail
             orders_create date_now]
    | apply all_calls_lift
    | apply all_calls_settle
    | apply all_calls_try_catch
    | apply all_calls_bind
    | progress intros
    | match goal with
      | |- all_calls _ (if ?b then _ else _) => destruct b
      | |- True => exact I
      | |- _ ∧ _ => split
      end ].

(** ** Booking creation: requests that lack information *)

(** C2.  A create-booking request whose [userId] is missing (or otherwise
    falsy), whose [cartItems] is missing or has no length, or whose
    [siteLocation] is missing is answered 400, in src/index.js and in
    part_001 alike, without a single call to any service and with the state
    of the world untouched. *)
Theorem create_booking_rejects_incomplete {rt : Runtime} {S : Type}
    (e : env S) (s : S) (body : value) :
  parsed_body body = true →
  truthy (get_prop body "userId") = false
  ∨ truthy (get_prop body "cartItems") = false
  ∨ truthy (get_prop (get_prop body "cartItems") "length") = false
  ∨ truthy (get_prop body "siteLocation") = false →
  run e (Index.create_booking body) s
    = RunResult (Returned (send 400 (VObj [("error", VStr "Missing booking information.")])))
        s []
  ∧ run e (Part001.create_booking body) s
    = RunResult (Returned (send 400 (VObj [("error", VStr "Missing booking information.")])))
        s [].
Proof.
  intros Hbody Hmissing.
  assert (Index.booking_info_missing (get_prop body "userId")
            (get_prop body "cartItems") (get_prop body "siteLocation") = true) as Hm.
  { unfold Index.booking_info_missing.
    destruct Hmissing as [-> | [-> | [-> | ->]]]; simpl; by rewrite ?orb_true_r. }
  unfold Index.create_booking, Part001.create_booking.
  rewrite !get_parsed by done. step. rewrite Hm. by step.
Qed.

Lemma create_booking_rejects_incomplete_witness :
  parsed_body Sample.empty_cart_request = true
  ∧ truthy (get_prop (get_prop Sample.empty_cart_request "cartItems") "length") = false
  ∧ run serve (Index.create_booking (rt:=Sample.runtime) Sample.empty_cart_request)
        (Sample.world_up ∅)
      = RunResult
          (Returned (send 400 (VObj [("error", VStr "Missing booking information.")])))
          (Sample.world_up ∅) [].
Proof.
  split; [reflexivity|]. split; [reflexivity|].
  apply (create_booking_rejects_incomplete (rt:=Sample.runtime) serve (Sample.world_up ∅)
           Sample.empty_cart_request).
  - reflexivity.
  - right. right. left. reflexivity.
Defined.

(** ** Listing creation: requests with falsy required fields *)

(** C10.  add-listing answers 400, without a database call, as soon as
    [listingType], [name], [price] or [merchantId] is falsy; the number 0
    and the empty string are falsy, so a price of 0 or an empty name counts
    as a missing field.  The check is the same in src/index.js and
    part_001. *)
Theorem add_listing_rejects_falsy_fields {rt : Runtime} {S : Type}
    (e : env S) (s : S) (body : value) :
  parsed_body body = true →
  truthy (get_prop body "listingType") = false
  ∨ truthy (get_prop body "name") = false
  ∨ truthy (get_prop body "price") = false
  ∨ truthy (get_prop body "merchantId") = false →
  (run e (Index.add_listing body) s
     = RunResult (Returned (send 400 (VObj [("error", VStr "Missing required fields.")]))) s []
   ∧ run e (Part001.add_listing body) s
     = RunResult (Returned (send 400 (VObj [("error", VStr "Missing required fields.")]))) s [])
  ∧ truthy (VNum 0x0p+0) = false
  ∧ truthy (VStr "") = false.
Proof.
  intros Hbody Hfalsy.
  assert (Index.listing_fields_missing (get_prop body "listingType") (get_prop body "name")
            (get_prop body "price") (get_prop body "merchantId") = true) as Hm.
  { unfold Index.listing_fields_missing.
    destruct Hfalsy as [-> | [-> | [-> | ->]]]; simpl; by rewrite ?orb_true_r. }
  split; [|done].
  unfold Index.add_listing, Part001.add_listing.
  rewrite !get_parsed by done. step. rewrite Hm. by step.
Qed.

Lemma add_listing_rejects_falsy_fields_witness :
  truthy (get_prop Sample.free_material_request "price") = false
  ∧ run serve (Index.add_listing (rt:=Sample.runtime) Sample.free_material_request)
        (Sample.world_up ∅)
      = RunResult (Returned (send 400 (VObj [("error", VStr "Missing required fields.")])))
          (Sample.world_up ∅) [].
Proof.
  split; [reflexivity|].
  apply (add_listing_rejects_falsy_fields (rt:=Sample.runtime) serve (Sample.world_up ∅)
           Sample.free_material_request).
  - reflexivity.
  - right. right. left. reflexivity.
Defined.

(** ** Facts about document paths *)

Lemma split_on_slash_free (s : string) :
  slash_free s = true → split_on "/" s = [s].
Proof.
  unfold slash_free. induction s as [|c s IH]; [done|].
  cbn [list_ascii_of_string forallb split_on]. intros [Hc Hs]%andb_prop.
  apply negb_true_iff in Hc. by rewrite Hc, (IH Hs).
Qed.

Lemma segments_slash_free (s : string) :
  slash_free s = true → segments s = if String.eqb s "" then [] else [s].
Proof.
  intros Hs. unfold segments. rewrite split_on_slash_free by done.
  cbn [List.filter]. by destruct (String.eqb s "").
Qed.

Lemma double_slash_slash_free (s : string) : slash_free s = true → double_slash s = false.
Proof.
  unfold slash_free. induction s as [|a s IH]; [done|].
  cbn [list_ascii_of_string forallb]. intros [Ha Hs]%andb_prop.
  apply negb_true_iff in Ha. destruct s as [|b s]; [done|].
  change (double_slash (String a (String b s)))
    with ((Ascii.eqb a "/" && Ascii.eqb b "/") || double_slash (String b s)).
  by rewrite Ha, (IH Hs).
Qed.

Lemma segments_listing_collection (name : string) :
  name ∈ Index.listing_collections → segments name = [name].
Proof.
  intros Hin. unfold Index.listing_collections in Hin.
  repeat (apply elem_of_cons in Hin as [->|Hin]; [reflexivity|]).
  by apply elem_of_nil in Hin.
Qed.

(** An identifier without a slash names a document of the collection
    itself. *)
Lemma doc_ref_slash_free (collection id : string) :
  segments collection = [collection] → slash_free id = true →
  doc_ref collection id = if String.eqb id "" then None else Some ([collection], id).
Proof.
  intros Hc Hid. unfold doc_ref.
  rewrite Hc, segments_slash_free, double_slash_slash_free by done.
  by destruct (String.eqb id "").
Qed.

(** Whatever the identifier, the document lies below the collection. *)
Lemma doc_ref_beneath (collection id : string) (parent : list string) (name : string) :
  segments collection = [collection] → doc_ref collection id = Some (parent, name) →
  head parent = Some collection.
Proof.
  intros Hc. unfold doc_ref. rewrite Hc.
  destruct (segments id) as [|seg segs].
  - cbn [app length Nat.odd Nat.even negb]. by rewrite !orb_true_r.
  - destruct (String.eqb id "" || double_slash id || Nat.odd _); [done|].
    cbn [app split_last].
    match goal with
    | |- match ?x with _ => _ end = _ → _ => destruct x as [[p n]|]; [|done]
    end.
    by intros [= <- <-].
Qed.

(** ** Listing update and delete: the collection gate *)

(** C5, as the code has it.  Update and delete of a listing reach the
    database only when the [collectionName] segment is one of equipment,
    materials, contractors: then exactly one call is made, with that
    collection and [listingId]; otherwise the answer is 400 and no call is
    made.  The identifier is not checked, and the database reads it as a
    path below the collection.  So every call these two routes make
    addresses one of the three collections or a collection beneath one of
    its documents; and it addresses one of the three whenever [listingId]
    has no slash. *)
Theorem listing_routes_confined {rt : Runtime} {S : Type}
    (e : env S) (s : S) (collectionName listingId : string) (body : value) :
  run e (Index.update_listing collectionName listingId body) s
    = (if bool_decide (collectionName ∈ ["equipment"; "materials"; "contractors"])
       then
         let a := e (DbUpdate collectionName listingId body) s in
         RunResult
           (Returned
              match a.1 with
              | Resolved _ => send 200 (VObj [("message", VStr "Listing updated successfully!")])
              | Rejected _ => send 500 (VObj [("error", VStr "Failed to update listing.")])
              end)
           a.2 [DbUpdate collectionName listingId body]
       else
         RunResult (Returned (send 400 (VObj [("error", VStr "Invalid collection specified.")])))
           s [])
  ∧ run e (Index.delete_listing collectionName listingId) s
    = (if bool_decide (collectionName ∈ ["equipment"; "materials"; "contractors"])
       then
         let a := e (DbDelete collectionName listingId) s in
         RunResult
           (Returned
              match a.1 with
              | Resolved _ => send 200 (VObj [("message", VStr "Listing removed successfully!")])
              | Rejected _ => send 500 (VObj [("error", VStr "Failed to remove listing.")])
              end)
           a.2 [DbDelete collectionName listingId]
       else
         RunResult (Returned (send 400 (VObj [("error", VStr "Invalid collection specified.")])))
           s [])
  ∧ Forall beneath_listing_collections
      (trace (run e (Index.update_listing collectionName listingId body) s))
  ∧ Forall beneath_listing_collections
      (trace (run e (Index.delete_listing collectionName listingId) s))
  ∧ (slash_free listingId = true →
     Forall in_listing_collections
       (trace (run e (Index.update_listing collectionName listingId body) s))
     ∧ Forall in_listing_collections
         (trace (run e (Index.delete_listing collectionName listingId) s))).
Proof.
  assert (∀ c, collection_of c = fst <$> doc_ref collectionName listingId →
               collectionName ∈ Index.listing_collections →
               beneath_listing_collections c
               ∧ (slash_free listingId = true → in_listing_collections c)) as Hcall.
  { intros c Hc Hin. pose proof (segments_listing_collection _ Hin) as Hseg.
    unfold beneath_listing_collections, in_listing_collections. rewrite Hc. split.
    - destruct (doc_ref collectionName listingId) as [[parent name]|] eqn:Href; [|done].
      exists collectionName. split; [done|]. by eapply doc_ref_beneath.
    - intros Hfree. rewrite doc_ref_slash_free by done.
      destruct (String.eqb listingId ""); [done|]. by exists collectionName. }
  unfold Index.update_listing, Index.delete_listing.
  rewrite includes_spec. change Index.listing_collections
    with ["equipment"; "materials"; "contractors"].
  case_bool_decide as Hin; step.
  - destruct (Hcall (DbUpdate collectionName listingId body) eq_refl Hin) as [Hu Hu'].
    destruct (Hcall (DbDelete collectionName listingId) eq_refl Hin) as [Hd Hd'].
    split_and!.
    + by destruct (e (DbUpdate collectionName listingId body) s) as [[u|x] s'].
    + by destruct (e (DbDelete collectionName listingId) s) as [[u|x] s'].
    + destruct (e (DbUpdate collectionName listingId body) s) as [[u|x] s'];
        step; (constructor; [exact Hu | constructor]).
    + destruct (e (DbDelete collectionName listingId) s) as [[u|x] s'];
        step; (constructor; [exact Hd | constructor]).
    + intros Hfree. split.
      * destruct (e (DbUpdate collectionName listingId body) s) as [[u|x] s'];
          step; (constructor; [exact (Hu' Hfree) | constructor]).
      * destruct (e (DbDelete collectionName listingId) s) as [[u|x] s'];
          step; (constructor; [exact (Hd' Hfree) | constructor]).
  - split_and!; first [done | constructor].
Qed.

(** C5 as stated fails: a [listingId] with slashes in it leads out of the
    three collections.  DELETE /api/listing/equipment/x%2Fusers%2Fy hands
    [x/users/y] to [doc], which names the document [y] of the collection
    [users] beneath the listing [x]; it is deleted and the answer is 200. *)
Lemma listing_routes_reach_beneath :
  let w := Sample.world_up Sample.nested_documents in
  let r := run serve_paths (Index.delete_listing "equipment" "x/users/y") w in
  trace r = [DbDelete "equipment" "x/users/y"]
  ∧ collection_of (DbDelete "equipment" "x/users/y") = Some ["equipment"; "x"; "users"]
  ∧ ("equipment/x/users" ∉ Index.listing_collections)
  ∧ docs_of w "equipment/x/users" !! "y" = Some [("name", VStr "Asha")]
  ∧ result r
    = Returned (send 200 (VObj [("message", VStr "Listing removed successfully!")]))
  ∧ docs_of (final r) "equipment/x/users" !! "y" = None
  ∧ docs_of (final r) "equipment" = docs_of w "equipment".
Proof.
  cbv zeta. split_and!; try (vm_compute; reflexivity).
  unfold Index.listing_collections. intros Hin.
  repeat (apply elem_of_cons in Hin as [Hin|Hin]; [discriminate|]).
  by apply elem_of_nil in Hin.
Qed.

(** ** Booking creation: the stored paymentDetails *)

(** C9.  Whatever the request, every document create-booking hands to the
    database goes to the bookings collection and carries a [paymentDetails]
    field: the value of the request when that is truthy, the empty object
    otherwise; it is never undefined.  This holds in src/index.js and in
    part_001. *)
Theorem booking_keeps_payment_details {rt : Runtime} {S : Type}
    (e : env S) (s : S) (body : value) :
  Forall (stores_payment_details (get_prop body "paymentDetails"))
    (trace (run e (Index.create_booking body) s))
  ∧ Forall (stores_payment_details (get_prop body "paymentDetails"))
      (trace (run e (Part001.create_booking body) s)).
Proof.
  assert (∀ u c t p l now,
            stores_payment_details p (DbAdd "bookings" (Index.booking_doc u c t p l now)))
    as Hdoc.
  { intros u c t p l now. split; [done|]. cbn. unfold or_else.
    destruct (truthy p) eqn:Hp; split; try done. by intros ->. }
  split; apply all_calls_trace.
  - unfold Index.create_booking, Index.send_confirmation.
    destruct body; calls; try exact I; apply Hdoc.
  - unfold Part001.create_booking.
    destruct body; calls; try exact I; apply Hdoc.
Qed.

(** ** Booking creation: valid requests *)

Lemma booking_info_present (userId cartItems siteLocation : value) :
  truthy userId = true → truthy cartItems = true →
  truthy (get_prop cartItems "length") = true → truthy siteLocation = true →
  Index.booking_info_missing userId cartItems siteLocation = false.
Proof. intros H1 H2 H3 H4. unfold Index.booking_info_missing. by rewrite H1, H2, H3, H4. Qed.

(** C1, as the code has it.  For a request with [userId], a non-empty
    [cartItems] and [siteLocation], create-booking reads the clock and asks
    the database to add a booking with status Confirmed.  If that call
    fails the answer is 500 and nothing else is called.  If it succeeds the
    answer is 201 with the generated identifier, whatever happens next: in
    src/index.js the account is looked up, and the mail relay is called
    once when the lookup succeeds and the message can be built, and not at
    all otherwise; the answer of the relay is ignored and no further
    database call is made.  part_001 stops after the database call. *)
Theorem create_booking_valid {rt : Runtime} {S : Type}
    (e : env S) (s : S) (body : value) :
  parsed_body body = true →
  truthy (get_prop body "userId") = true →
  truthy (get_prop body "cartItems") = true →
  truthy (get_prop (get_prop body "cartItems") "length") = true →
  truthy (get_prop body "siteLocation") = true →
  let userId := get_prop body "userId" in
  let cartItems := get_prop body "cartItems" in
  let totalPrice := get_prop body "totalPrice" in
  let siteLocation := get_prop body "siteLocation" in
  let clock := e DateNow s in
  let doc :=
    Index.booking_doc userId cartItems totalPrice (get_prop body "paymentDetails")
      siteLocation clock.1 in
  let added := e (DbAdd "bookings" doc) clock.2 in
  let failed := send 500 (VObj [("error", VStr "Failed to create booking.")]) in
  let created bookingId :=
    send 201 (VObj [("message", VStr "Booking created successfully!");
                    ("bookingId", VStr bookingId)]) in
  get_prop doc "status" = VStr "Confirmed"
  ∧ match added.1 with
    | Rejected _ =>
        run e (Index.create_booking body) s
          = RunResult (Returned failed) added.2 [DateNow; DbAdd "bookings" doc]
        ∧ run e (Part001.create_booking body) s
          = RunResult (Returned failed) added.2 [DateNow; DbAdd "bookings" doc]
    | Resolved bookingId =>
        let looked_up := e (AuthGetUser userId) added.2 in
        result (run e (Index.create_booking body) s) = Returned (created bookingId)
        ∧ trace (run e (Index.create_booking body) s)
          = ([DateNow; DbAdd "bookings" doc; AuthGetUser userId]
             ++ match looked_up.1 with
                | Rejected _ => []
                | Resolved user =>
                    match Index.confirmation_mail bookingId user cartItems totalPrice
                            siteLocation with
                    | Abrupt _ => []
                    | Normal mailOptions => [SendMail mailOptions]
                    end
                end)%list
        ∧ run e (Part001.create_booking body) s
          = RunResult (Returned (created bookingId)) added.2 [DateNow; DbAdd "bookings" doc]
    end.
Proof.
  intros Hbody H1 H2 H3 H4. cbv zeta.
  pose proof (booking_info_present _ _ _ H1 H2 H3 H4) as Hpresent.
  split; [done|].
  unfold Index.create_booking, Part001.create_booking, Index.send_confirmation.
  rewrite !get_parsed by done. step. rewrite Hpresent. step.
  destruct (e DateNow s) as [now s1]. step.
  destruct (e (DbAdd "bookings" _) s1) as [[bookingId|x] s2]; step; [|done].
  split_and!; [| |done].
  - destruct (e (AuthGetUser _) s2) as [[user|x] s3]; step; [|done].
    destruct (Index.confirmation_mail _ _ _ _ _) as [mailOptions|x]; step; [|done].
    by destruct (e (SendMail mailOptions) s3) as [[u|x] s4].
  - destruct (e (AuthGetUser _) s2) as [[user|x] s3]; step; [|done].
    destruct (Index.confirmation_mail _ _ _ _ _) as [mailOptions|x]; step; [|done].
    by destruct (e (SendMail mailOptions) s3) as [[u|x] s4].
Qed.

Lemma create_booking_valid_witness :
  parsed_body Sample.booking_request = true
  ∧ truthy (get_prop (get_prop Sample.booking_request "cartItems") "length") = true
  ∧ result (run serve (Index.create_booking (rt:=Sample.runtime) Sample.booking_request)
              (Sample.world_up ∅))
    = Returned (send 201 (VObj [("message", VStr "Booking created successfully!");
                                ("bookingId", VStr "0")])).
Proof.
  split; [reflexivity|]. split; [reflexivity|].
  pose proof (create_booking_valid (rt:=Sample.runtime) serve (Sample.world_up ∅)
                Sample.booking_request eq_refl eq_refl eq_refl eq_refl eq_refl) as H.
  cbv zeta in H. destruct H as [_ H].
  vm_compute in H. destruct H as [H _].
  vm_compute. exact H.
Defined.

(** C1 as stated fails where the account lookup fails: the request is
    valid, the booking is stored as Confirmed and the answer is 201, but the
    mail relay is not called at all. *)
Lemma create_booking_lookup_fails_no_mail :
  let r := run serve (Index.create_booking (rt:=Sample.runtime) Sample.booking_request)
             Sample.world_lookup_down in
  Index.booking_info_missing (get_prop Sample.booking_request "userId")
    (get_prop Sample.booking_request "cartItems")
    (get_prop Sample.booking_request "siteLocation") = false
  ∧ result r = Returned (send 201 (VObj [("message", VStr "Booking created successfully!");
                                         ("bookingId", VStr "0")]))
  ∧ (obj_lookup "status" <$> docs_of (final r) "bookings" !! "0")
    = Some (Some (VStr "Confirmed"))
  ∧ count_sends (trace r) = 0%nat
  ∧ count_sends (trace r) ≠ 1%nat.
Proof. vm_compute. split_and!; done. Qed.

(** ** Payment orders *)

Lemma invalid_amount_number (amount : value) :
  Part000.invalid_amount amount = false → ∃ n, amount = VNum n.
Proof. destruct amount; try discriminate. eauto. Qed.

(** C3, as the code has it.  In part_000 and part_001 an amount that is
    not a number, is below 1 or is NaN is refused without any call: with
    400, except that part_000 first prints the amount and answers 500 when
    that conversion throws (never for a number).  Any other amount, +infinity
    included, is accepted, and the payment gateway is called once, after the
    clock, with [Math.round(amount * 100)] in double arithmetic.  So 0.5 is
    refused, 10 gives 1000 and 10.005 gives 1001.  src/index.js checks
    nothing: a number reaches the gateway as [amount * 100]. *)
Theorem create_order_checks_amount {rt : Runtime} {S : Type}
    (e : env S) (s : S) (body : value) :
  parsed_body body = true →
  let amount := get_prop body "amount" in
  let refused := send 400 (VObj [("error", VStr "Invalid amount for payment.")]) in
  let unexpected := send 500 (VStr "An unexpected error occurred on the server.") in
  (if Part000.invalid_amount amount
   then
     run e (Part000.create_order body) s
       = RunResult
           (Returned match to_string amount with
                     | Normal _ => refused
                     | Abrupt _ => unexpected
                     end)
           s []
     ∧ run e (Part001.create_order body) s = RunResult (Returned refused) s []
   else
     ∃ n, amount = VNum n
       ∧ trace (run e (Part000.create_order body) s)
         = [DateNow;
            OrdersCreate (Index.order_options (math_round (n * 0x64p+0)) (e DateNow s).1)]
       ∧ trace (run e (Part001.create_order body) s)
         = [DateNow;
            OrdersCreate (Index.order_options (math_round (n * 0x64p+0)) (e DateNow s).1)])
  ∧ match amount with
    | VNum n =>
        trace (run e (Index.create_order body) s)
          = [DateNow; OrdersCreate (Index.order_options (n * 0x64p+0) (e DateNow s).1)]
    | _ => True
    end
  ∧ (∀ n, Part000.invalid_amount (VNum n) = (n <? 0x1p+0)%float || is_nan n)
  ∧ (∀ n, to_string (VNum n) = Normal (number_to_string n))
  ∧ Part000.invalid_amount (VNum 0x1p-1) = true
  ∧ math_round (0xap+0 * 0x64p+0) = 0x3e8p+0%float
  ∧ math_round (0x1.4028f5c28f5c3p+3 * 0x64p+0) = 0x3e9p+0%float.
Proof.
  intros Hbody. cbv zeta. split; [|split; [|by split_and!]].
  2:{ unfold Index.create_order. rewrite !get_parsed by done. step.
      destruct (get_prop body "amount") as [| | |n| | |]; try exact I.
      cbn [to_number]. step.
      destruct (e DateNow s) as [now s1]. step.
      destruct (e (OrdersCreate _) s1) as [[order|x] s2]; step; [|done].
      by destruct (truthy order). }
  unfold Part000.create_order, Part001.create_order.
  rewrite !get_parsed by done. step.
  destruct (Part000.invalid_amount (get_prop body "amount")) eqn:Hinvalid.
  - split; [|done].
    by destruct (to_string (get_prop body "amount")).
  - destruct (invalid_amount_number _ Hinvalid) as [n Hn]. exists n. rewrite Hn.
    cbn [to_string to_number]. step.
    destruct (e DateNow s) as [now s1]. step.
    split; [done|]. unfold Part000.amount_in_paise.
    destruct (e (OrdersCreate _) s1) as [[order|x] s2]; step.
    + by destruct (truthy order).
    + unfold Part000.surface_error.
      destruct x; step; try done; by destruct (Part000.status_send _ _).
Qed.

Lemma create_order_checks_amount_witness :
  parsed_body (Sample.amount_request 0x1.4028f5c28f5c3p+3) = true
  ∧ trace (run serve
             (Part000.create_order (rt:=Sample.runtime)
                (Sample.amount_request 0x1.4028f5c28f5c3p+3))
             (Sample.world_up ∅))
    = [DateNow; OrdersCreate (Index.order_options 0x3e9p+0 1700000000000)].
Proof.
  split; [reflexivity|].
  pose proof (create_order_checks_amount (rt:=Sample.runtime) serve (Sample.world_up ∅)
                (Sample.amount_request 0x1.4028f5c28f5c3p+3) eq_refl) as H.
  cbv zeta in H. destruct H as [H _].
  vm_compute in H. destruct H as (n & Hn & H & _).
  vm_compute. injection Hn as <-. exact H.
Defined.

(** C3 as stated fails in two places.  In part_000 an infinite amount
    (what [JSON.parse] makes of 1e999) passes the check and reaches the
    gateway; in src/index.js nothing is checked or rounded, and 0.5 reaches
    the gateway as 50. *)
Lemma create_order_accepts_infinity :
  let r := run serve (Part000.create_order (rt:=Sample.runtime) (Sample.amount_request infinity))
             (Sample.world_up ∅) in
  let r' := run serve (Index.create_order (rt:=Sample.runtime) (Sample.amount_request 0x1p-1))
              (Sample.world_up ∅) in
  is_finite infinity = false
  ∧ result r = Returned (send 200 Sample.order)
  ∧ trace r = [DateNow; OrdersCreate (Index.order_options infinity 1700000000000)]
  ∧ result r' = Returned (send 200 Sample.order)
  ∧ trace r' = [DateNow; OrdersCreate (Index.order_options 0x32p+0 1700000000000)].
Proof. vm_compute. split_and!; reflexivity. Qed.

(** C4, as the code has it.  For an accepted amount, part_000 answers a
    rejection of the gateway with [statusCode || 500] and the error's
    [error] field as it is, provided the response object takes that status:
    an HTTP error status (an integer from 400 to 599, 500 included) always
    goes out; a truthy code that Node cannot write, such as 1000, makes the
    inner handler throw, and the outer one answers 500 with a fixed text,
    as it does when the thrown value is undefined or null; for the codes in
    between, and for a payload that is a number, the version of Express
    decides.  src/index.js and part_001 answer every rejection with 500 and
    a fixed text.  When the gateway resolves, all three send the order
    unchanged with status 200, unless it is falsy, which gives 500. *)
Theorem create_order_surfaces_outcome {rt : Runtime} {S : Type}
    (e : env S) (s : S) (body : value) (n : float) :
  parsed_body body = true →
  get_prop body "amount" = VNum n →
  Part000.invalid_amount (VNum n) = false →
  let clock := e DateNow s in
  let placed := e (OrdersCreate (Index.order_options (math_round (n * 0x64p+0)) clock.1))
                  clock.2 in
  let placed' := e (OrdersCreate (Index.order_options (n * 0x64p+0) clock.1)) clock.2 in
  let returned order :=
    if truthy order then send 200 order else send 500 (VStr "Error creating order") in
  let unexpected := send 500 (VStr "An unexpected error occurred on the server.") in
  result (run e (Part000.create_order body) s)
    = Returned
        match placed.1 with
        | Resolved order => returned order
        | Rejected razorpayError =>
            match get razorpayError "statusCode" with
            | Normal statusCode =>
                let code := if truthy statusCode then statusCode else VNum (float_of_Z 500) in
                let payload := get_prop razorpayError "error" in
                let by_version :=
                  match response_sent code payload with
                  | Some (code', payload') => Response code' payload'
                  | None => unexpected
                  end in
                match payload with
                | VNum _ => by_version
                | _ =>
                    if Part000.error_status code then Response code payload
                    else if Part000.writable_status code then by_version
                    else unexpected
                end
            | Abrupt _ => unexpected
            end
        end
  ∧ result (run e (Part001.create_order body) s)
    = Returned
        match placed.1 with
        | Resolved order => returned order
        | Rejected _ => send 500 (VStr "Something went wrong with Razorpay")
        end
  ∧ result (run e (Index.create_order body) s)
    = Returned
        match placed'.1 with
        | Resolved order => returned order
        | Rejected _ => send 500 (VStr "Something went wrong")
        end.
Proof.
  intros Hbody Hamount Hvalid. cbv zeta.
  unfold Part000.create_order, Part001.create_order, Index.create_order.
  rewrite !get_parsed by done. step. rewrite !Hamount, Hvalid.
  cbn [to_string to_number]. step.
  destruct (e DateNow s) as [now s1]. step. unfold Part000.amount_in_paise.
  split_and!.
  - destruct (e (OrdersCreate _) s1) as [[order|x] s2]; step.
    + by destruct (truthy order).
    + unfold Part000.surface_error, Part000.status_send, or_else.
      destruct x; step; try done;
        repeat match goal with
               | |- context [match ?v with _ => _ end] =>
                   is_var v; destruct v
               | |- context [if ?b then _ else _] => destruct b
               | |- context [match get_prop ?v ?k with _ => _ end] =>
                   destruct (get_prop v k)
               | |- context [match response_sent ?c ?p with _ => _ end] =>
                   destruct (response_sent c p) as [[? ?]|]
               end; done.
  - destruct (e (OrdersCreate _) s1) as [[order|x] s2]; step; [|done].
    by destruct (truthy order).
  - destruct (e (OrdersCreate _) s1) as [[order|x] s2]; step; [|done].
    by destruct (truthy order).
Qed.

Lemma create_order_surfaces_outcome_witness :
  Part000.invalid_amount (VNum 0xap+0) = false
  ∧ result (run serve (Part000.create_order (rt:=Sample.runtime) (Sample.amount_request 0xap+0))
              Sample.world_gateway_refuses)
    = Returned (Response (VNum 0x190p+0) (VObj [("code", VStr "BAD_REQUEST_ERROR")]))
  ∧ result (run serve (Part000.create_order (rt:=Sample.runtime) (Sample.amount_request 0xap+0))
              Sample.world_gateway_confused)
    = Returned (send 500 (VStr "An unexpected error occurred on the server.")).
Proof.
  split; [reflexivity|].
  pose proof (create_order_surfaces_outcome (rt:=Sample.runtime) serve
                Sample.world_gateway_refuses (Sample.amount_request 0xap+0) 0xap+0
                eq_refl eq_refl eq_refl) as H.
  pose proof (create_order_surfaces_outcome (rt:=Sample.runtime) serve
                Sample.world_gateway_confused (Sample.amount_request 0xap+0) 0xap+0
                eq_refl eq_refl eq_refl) as H'.
  cbv zeta in H, H'. destruct H as [H _]. destruct H' as [H' _].
  vm_compute in H. vm_compute in H'. vm_compute. split; [exact H | exact H'].
Defined.

(** C4 as stated fails in src/index.js, where a rejection carrying status
    400 and a payload is answered with 500 and a fixed text; and in part_000
    an error without a status code is answered with 500. *)
Lemma create_order_hides_gateway_error :
  let r := run serve (Index.create_order (rt:=Sample.runtime) (Sample.amount_request 0xap+0))
             Sample.world_gateway_refuses in
  let r' := run serve (Part000.create_order (rt:=Sample.runtime) (Sample.amount_request 0xap+0))
              Sample.world_gateway_unreachable in
  gateway Sample.world_gateway_refuses (Index.order_options 0x3e8p+0 1700000000000)
    = Rejected Sample.bad_request
  ∧ get_prop Sample.bad_request "statusCode" = VNum 0x190p+0
  ∧ result r = Returned (send 500 (VStr "Something went wrong"))
  ∧ result r' = Returned (Response (VNum 0x1f4p+0) (VObj [("code", VStr "ECONNRESET")])).
Proof. vm_compute. split_and!; reflexivity. Qed.

(** ** Facts about objects and the in-memory store *)

Lemma obj_lookup_set (k : string) (v : value) (fs : list (string * value)) :
  obj_lookup k (obj_set k v fs) = Some v.
Proof.
  induction fs as [|[k' v'] fs IH]; simpl.
  - by rewrite String.eqb_refl.
  - destruct (String.eqb k k') eqn:Hk; simpl; by rewrite ?String.eqb_refl, ?Hk.
Qed.


Lemma docs_of_with_docs (w : world) (collection : string)
    (docs : gmap string (list (string * value))) :
  docs_of (with_docs w collection docs) collection = docs.
Proof. unfold docs_of, with_docs. simpl. by rewrite lookup_insert_eq. Qed.

Lemma serve_cancel (w : world) (id : string) :
  serve (DbUpdate "bookings" id (VObj [("status", VStr "Cancelled")])) w
  = match docs_of w "bookings" !! id with
    | Some doc =>
        (Resolved (),
         with_docs w "bookings"
           (<[id := obj_set "status" (VStr "Cancelled") doc]> (docs_of w "bookings")))
    | None => (Rejected not_found, w)
    end.
Proof. reflexivity. Qed.

(** ** Cancellation *)


(** ** Materials: create, then read *)

Lemma is_text_eq (v : value) (text : string) :
  Index.is_text v text = true → v = VStr text.
Proof. destruct v; try discriminate. simpl. by intros ->%String.eqb_eq. Qed.

(** C7.  On the in-memory store, when add-listing has created a listing
    of type Material under the identifier [id], GET /api/materials answers
    200 with an array that holds a document with that [id], whose [specs] is
    the submitted [description] and whose [pricePerUnit] is
    [Number(price)]. *)
Theorem material_round_trip {rt : Runtime} (w : world) (body : value) (id : string) :
  Index.is_text (get_prop body "listingType") "Material" = true →
  result (run serve (Index.add_listing body) w) = Returned (Index.created id) →
  ∃ (price : float) (listings : list value) (listing : value),
    to_number (get_prop body "price") = Normal price
    ∧ result (run serve Index.get_materials (final (run serve (Index.add_listing body) w)))
      = Returned (send 200 (VArr listings))
    ∧ listing ∈ listings
    ∧ get_prop listing "id" = VStr id
    ∧ get_prop listing "specs" = get_prop body "description"
    ∧ get_prop listing "pricePerUnit" = VNum price.
Proof.
  intros Htype%is_text_eq Hcreated. revert Hcreated.
  unfold Index.add_listing, Index.get_materials.
  destruct body; step; try discriminate.
  rewrite Htype. cbn [Index.is_text String.eqb Ascii.eqb Bool.eqb].
  destruct (Index.listing_fields_missing _ _ _ _); step; [discriminate|].
  destruct (to_number _) as [price|x]; step; [|discriminate].
  unfold Index.material_data. cbn [serve].
  destruct (has_undefined _); step; [discriminate|].
  intros [= <-]. rewrite docs_of_with_docs.
  eexists price, _, _. split_and!; try done.
  - apply list_elem_of_fmap. eexists (_, _). split; [done|].
    apply elem_of_map_to_list, lookup_insert_eq.
  - done.
  - done.
  - done.
Qed.

Lemma material_round_trip_witness :
  result (run serve (Index.add_listing (rt:=Sample.runtime) Sample.material_request)
            (Sample.world_up ∅))
    = Returned (Index.created "0")
  ∧ ∃ (price : float) (listings : list value) (listing : value),
      to_number (rt:=Sample.runtime) (get_prop Sample.material_request "price") = Normal price
      ∧ result (run serve (Index.get_materials)
                  (final (run serve (Index.add_listing (rt:=Sample.runtime)
                                       Sample.material_request) (Sample.world_up ∅))))
        = Returned (send 200 (VArr listings))
      ∧ listing ∈ listings
      ∧ get_prop listing "id" = VStr "0"
      ∧ get_prop listing "specs" = get_prop Sample.material_request "description"
      ∧ get_prop listing "pricePerUnit" = VNum price.
Proof.
  split; [reflexivity|].
  apply (material_round_trip (rt:=Sample.runtime) (Sample.world_up ∅)
           Sample.material_request "0"); reflexivity.
Defined.

(** ** Bookings of a user, newest first *)

Lemma field_equals_spec (field equal_to : string) (fields : list (string * value)) :
  field_equals field equal_to fields = true
  ↔ obj_lookup field fields = Some (VStr equal_to).
Proof.
  unfold field_equals. destruct (obj_lookup field fields) as [[]|]; try by split.
  rewrite String.eqb_eq. split; [by intros -> | by intros [= ->]].
Qed.

Section Sorting.
Context {rt : Runtime}.

Lemma by_booking_date_valid (a b : value) (ta tb : Z) :
  booking_time a = Some ta → booking_time b = Some tb →
  Index.by_booking_date a b = Normal (Some (tb - ta)).
Proof.
  unfold booking_time, Index.by_booking_date. intros Ha Hb.
  destruct (date_time_value (get_prop b "bookingDate")) as [t|]; [|done].
  destruct (date_time_value (get_prop a "bookingDate")) as [t'|]; [|done].
  simpl in *. by subst.
Qed.

Lemma not_older_trans (a b c : value) : not_older a b → not_older b c → not_older a c.
Proof.
  intros (ta & tb & Ha & Hb & Hab) (tb' & tc & Hb' & Hc & Hbc).
  exists ta, tc. split_and!; [done..|].
  rewrite Hb in Hb'. injection Hb' as <-. by etrans.
Qed.

Lemma insert_sorted_valid (x : value) (l : list value) :
  is_Some (booking_time x) → Forall (λ y, is_Some (booking_time y)) l →
  StronglySorted not_older l →
  ∃ l', Index.insert_sorted Index.by_booking_date x l = Normal l'
        ∧ l' ≡ₚ x :: l ∧ StronglySorted not_older l'.
Proof.
  intros [tx Hx]. induction l as [|y l IH]; intros Hvalid Hsorted.
  - exists [x]. split_and!; [done..|]. by repeat constructor.
  - apply Forall_cons in Hvalid as [[ty Hy] Hvalid].
    apply StronglySorted_inv in Hsorted as [Hsorted Hy_first].
    cbn [Index.insert_sorted]. rewrite (by_booking_date_valid x y tx ty) by done.
    cbn [mbind completion_bind cbind Index.comes_after].
    destruct (0 <? ty - tx) eqn:Hcmp.
    + apply Z.ltb_lt in Hcmp.
      destruct (IH Hvalid Hsorted) as (l' & -> & Hperm & Hsorted').
      exists (y :: l'). split_and!; [done| |].
      * rewrite Hperm. apply Permutation_swap.
      * constructor; [done|]. rewrite Hperm. constructor; [|done].
        exists ty, tx. split_and!; [done..|]. lia.
    + apply Z.ltb_ge in Hcmp.
      exists (x :: y :: l). split_and!; [done..|].
      assert (not_older x y) as Hxy by (exists tx, ty; split_and!; [done..|lia]).
      constructor; [by constructor|]. constructor; [done|].
      eapply Forall_impl; [exact Hy_first|]. intros z Hz. by eapply not_older_trans.
Qed.

Lemma array_sort_valid (l : list value) :
  Forall (λ y, is_Some (booking_time y)) l →
  ∃ l', Index.array_sort Index.by_booking_date l = Normal l'
        ∧ l' ≡ₚ l ∧ StronglySorted not_older l'.
Proof.
  induction l as [|x l IH]; intros Hvalid.
  - exists []. split_and!; [done..|]. constructor.
  - apply Forall_cons in Hvalid as [Hx Hvalid].
    destruct (IH Hvalid) as (l' & Hsort & Hperm & Hsorted).
    cbn [Index.array_sort]. rewrite Hsort. cbn [mbind completion_bind cbind].
    destruct (insert_sorted_valid x l' Hx) as (l'' & -> & Hperm' & Hsorted'); [|done|].
    + by rewrite Hperm.
    + exists l''. split_and!; [done| |done]. by rewrite Hperm', Hperm.
Qed.

End Sorting.

(** C8.  On the in-memory store, provided the bookings of the user carry
    a [bookingDate] that [new Date] can read, my-bookings answers 200 with
    an array that holds exactly the stored bookings whose [clientId] is the
    given [userId], each once and with its identifier, ordered so that no
    element is older than one that follows it; when no booking matches, the
    array is empty.  The query is the only call. *)
Theorem my_bookings_newest_first {rt : Runtime} (w : world) (userId : string) :
  (∀ id fields,
     docs_of w "bookings" !! id = Some fields →
     obj_lookup "clientId" fields = Some (VStr userId) →
     is_Some (booking_time (Index.with_id (id, fields)))) →
  ∃ bookings : list value,
    run serve (Index.my_bookings userId) w
      = RunResult (Returned (send 200 (VArr bookings))) w
          [DbWhereGet "bookings" "clientId" userId]
    ∧ bookings
      ≡ₚ Index.with_id
           <$> filter (λ d, field_equals "clientId" userId d.2 = true)
                 (map_to_list (docs_of w "bookings"))
    ∧ (∀ b, b ∈ bookings
            ↔ ∃ id fields,
                docs_of w "bookings" !! id = Some fields
                ∧ obj_lookup "clientId" fields = Some (VStr userId)
                ∧ b = Index.with_id (id, fields))
    ∧ StronglySorted not_older bookings
    ∧ ((∀ id fields, docs_of w "bookings" !! id = Some fields →
                     obj_lookup "clientId" fields ≠ Some (VStr userId)) →
       bookings = []).
Proof.
  intros Hdates.
  set (matching := filter (λ d, field_equals "clientId" userId d.2 = true)
                     (map_to_list (docs_of w "bookings"))).
  assert (∀ d, d ∈ matching
               ↔ docs_of w "bookings" !! d.1 = Some d.2
                 ∧ obj_lookup "clientId" d.2 = Some (VStr userId)) as Hmatching.
  { intros [id fields]. unfold matching.
    rewrite list_elem_of_filter, elem_of_map_to_list, field_equals_spec. simpl. tauto. }
  assert (∃ bookings,
            run serve (Index.my_bookings userId) w
              = RunResult (Returned (send 200 (VArr bookings))) w
                  [DbWhereGet "bookings" "clientId" userId]
            ∧ bookings ≡ₚ Index.with_id <$> matching
            ∧ StronglySorted not_older bookings) as (bookings & Hrun & Hperm & Hsorted).
  { unfold Index.my_bookings. step. cbn [serve]. fold matching. step.
    destruct matching as [|d rest] eqn:Hm.
    - exists []. split_and!; [done..|]. constructor.
    - rewrite <- Hm in *.
      destruct (array_sort_valid (Index.with_id <$> matching)) as (l & Hsort & ? & ?).
      { apply Forall_fmap, Forall_forall. intros [id fields] [? ?]%Hmatching.
        by apply Hdates. }
      exists l. split_and!; [|done..].
      rewrite Hm in Hsort |- *. rewrite Hsort. by step. }
  exists bookings. split_and!; [done..| | done |].
  - intros b. rewrite Hperm, list_elem_of_fmap. split.
    + intros ([id fields] & -> & [? ?]%Hmatching). by exists id, fields.
    + intros (id & fields & ? & ? & ->). exists (id, fields). split; [done|].
      by apply Hmatching.
  - intros Hnone. destruct matching as [|[id fields] rest] eqn:Hm.
    + by apply Permutation_nil_r in Hperm.
    + assert ((id, fields) ∈ (id, fields) :: rest) as [? ?]%Hmatching by left.
      by destruct (Hnone id fields).
Qed.

Lemma my_bookings_newest_first_witness :
  ∃ bookings : list value,
    run serve (Index.my_bookings (rt:=Sample.runtime) "u1") (Sample.world_up Sample.some_bookings)
      = RunResult (Returned (send 200 (VArr bookings))) (Sample.world_up Sample.some_bookings)
          [DbWhereGet "bookings" "clientId" "u1"]
    ∧ bookings
      ≡ₚ Index.with_id
           <$> filter (λ d, field_equals "clientId" "u1" d.2 = true)
                 (map_to_list (docs_of (Sample.world_up Sample.some_bookings) "bookings"))
    ∧ (∀ b, b ∈ bookings
            ↔ ∃ id fields,
                docs_of (Sample.world_up Sample.some_bookings) "bookings" !! id = Some fields
                ∧ obj_lookup "clientId" fields = Some (VStr "u1")
                ∧ b = Index.with_id (id, fields))
    ∧ StronglySorted (not_older (rt:=Sample.runtime)) bookings
    ∧ ((∀ id fields,
          docs_of (Sample.world_up Sample.some_bookings) "bookings" !! id = Some fields →
          obj_lookup "clientId" fields ≠ Some (VStr "u1")) →
       bookings = []).
Proof.
  apply (my_bookings_newest_first (rt:=Sample.runtime)
           (Sample.world_up Sample.some_bookings) "u1").
  intros id fields Hdoc Hclient.
  apply elem_of_map_to_list in Hdoc. vm_compute in Hdoc.
  apply list_elem_of_In in Hdoc. simpl in Hdoc.
  destruct Hdoc as [[= <- <-]|[[= <- <-]|[[= <- <-]|[]]]];
    try discriminate Hclient; vm_compute; eauto.
Defined.

(** ** Which routes write, and that every route answers *)

Lemma obj_lookup_set_ne (k k' : string) (v : value) (fs : list (string * value)) :
  k ≠ k' → obj_lookup k (obj_set k' v fs) = obj_lookup k fs.
Proof.
  intros Hne. apply String.eqb_neq in Hne.
  induction fs as [|[k'' v''] fs IH]; simpl.
  - by rewrite Hne.
  - destruct (String.eqb k' k'') eqn:Hk; simpl.
    + apply String.eqb_eq in Hk as <-. by rewrite Hne.
    + by rewrite IH.
Qed.

Lemma serve_read_keeps_db (c : call) (w : world) :
  is_write c = false → db (serve c w).2 = db w.
Proof.
  destruct c; try discriminate; intros _; try done.
  simpl. by destruct (relay w mailOptions).
Qed.

Lemma run_serve_keeps_db {A} (p : prog A) (w : world) :
  all_calls (λ c, is_write c = false) p → db (final (run serve p w)) = db w.
Proof.
  revert w. induction p as [a|x|c k IH]; intros w Hp; [done..|].
  destruct Hp as [Hc Hk]. cbn [run final]. rewrite IH by done.
  by apply serve_read_keeps_db.
Qed.

Lemma answers_try_catch {A} (m : prog A) (h : value → prog A) :
  (∀ x, answers (h x)) → answers (try_catch m h).
Proof. intros Hh. induction m as [a|x|c k IH]; simpl; [done|done|]. intros r. apply IH. Qed.

Lemma answers_returns {S A} (e : env S) (p : prog A) (s : S) :
  answers p → ∃ a, result (run e p s) = Returned a.
Proof.
  revert s. induction p as [a|x|c k IH]; intros s Hp; [by exists a|done|].
  cbn [run result]. by apply IH.
Qed.

(** Goals [all_calls P p] where [p] also branches on a snapshot. *)
Ltac calls_through :=
  calls;
  repeat (match goal with
          | |- all_calls _ (match ?x with _ => _ end) => destruct x
          end; calls).

(** X1.  The routes that list bookings and listings, and create-order in
    all three versions, never ask the database to add, update or delete,
    whatever the request and whatever the services answer; run on the
    in-memory store they leave every collection as it was. *)
Theorem reading_routes_never_write {rt : Runtime} {S : Type}
    (e : env S) (s : S) (w : world) (userId : string) (body : value) :
  Forall (λ p, Forall (λ c, is_write c = false) (trace (run e p s)))
    (reading_routes userId body)
  ∧ Forall (λ p, db (final (run serve p w)) = db w) (reading_routes userId body).
Proof.
  assert (Forall (all_calls (λ c, is_write c = false)) (reading_routes userId body)) as H.
  { unfold reading_routes, Index.my_bookings, Index.my_listings, Index.get_equipment,
      Index.get_materials, Index.get_contractors, Index.create_order,
      Part000.create_order, Part001.create_order, Part000.surface_error.
    repeat constructor; try (destruct body); calls_through; done. }
  split.
  - eapply Forall_impl; [exact H|]. intros p Hp. by apply all_calls_trace.
  - eapply Forall_impl; [exact H|]. intros p Hp. by apply run_serve_keeps_db.
Qed.

(** X2.  Every route of src/index.js other than register, and each route
    that part_000 or part_001 changes, ends by sending a response: whatever
    the request and whatever the services answer or throw, no exception
    leaves the handler. *)
Theorem every_route_answers {rt : Runtime} {S : Type} (e : env S) (s : S)
    (userId bookingId collectionName listingId : string) (body : value) :
  Forall (λ p, ∃ r, result (run e p s) = Returned r)
    (reading_routes userId body ++ writing_routes bookingId collectionName listingId body).
Proof.
  apply Forall_forall. intros p Hp. apply answers_returns. revert p Hp.
  apply Forall_forall.
  unfold reading_routes, writing_routes.
  repeat constructor; by apply answers_try_catch.
Qed.

(** ** Listings of a merchant *)

(** X3.  my-listings always issues its three queries, on equipment,
    materials and contractors in this order, each filtered by [merchantId],
    even when an earlier one fails.  If all three resolve the answer is 200
    with the equipment, then the materials, then the contractors found,
    each tagged with its collection; if any of them rejects the answer is
    500.  On the in-memory store the answer is always 200, the store is left
    as it was, and the array has one element for each document of the three
    collections whose [merchantId] is the given string. *)
Theorem my_listings_three_queries {S : Type} (e : env S) (s : S) (w : world)
    (userId : string) :
  let q1 := DbWhereGet "equipment" "merchantId" userId in
  let q2 := DbWhereGet "materials" "merchantId" userId in
  let q3 := DbWhereGet "contractors" "merchantId" userId in
  let a1 := e q1 s in
  let a2 := e q2 a1.2 in
  let a3 := e q3 a2.2 in
  let owned name :=
    filter (λ d, field_equals "merchantId" userId d.2 = true)
      (map_to_list (docs_of w name)) in
  run e (Index.my_listings userId) s
  = RunResult
      (Returned
         match a1.1, a2.1, a3.1 with
         | Resolved eqSnap, Resolved matSnap, Resolved conSnap =>
             send 200 (VArr ((Index.tagged "equipment" <$> eqSnap)
                             ++ (Index.tagged "materials" <$> matSnap)
                             ++ (Index.tagged "contractors" <$> conSnap))%list)
         | _, _, _ => send 500 (VObj [("error", VStr "Failed to fetch listings.")])
         end)
      a3.2 [q1; q2; q3]
  ∧ ∃ listings,
      run serve (Index.my_listings userId) w
        = RunResult (Returned (send 200 (VArr listings))) w [q1; q2; q3]
      ∧ listings = ((Index.tagged "equipment" <$> owned "equipment")
                    ++ (Index.tagged "materials" <$> owned "materials")
                    ++ (Index.tagged "contractors" <$> owned "contractors"))%list
      ∧ length listings
        = (length (owned "equipment") + length (owned "materials")
           + length (owned "contractors"))%nat.
Proof.
  cbv zeta. split.
  - unfold Index.my_listings. step.
    destruct (e (DbWhereGet "equipment" "merchantId" userId) s) as [r1 s1]. step.
    destruct (e (DbWhereGet "materials" "merchantId" userId) s1) as [r2 s2]. step.
    destruct (e (DbWhereGet "contractors" "merchantId" userId) s2) as [r3 s3]. step.
    by destruct r1, r2, r3.
  - eexists. split_and!; [done..|].
    by rewrite !length_app, !length_fmap, Nat.add_assoc.
Qed.

(** ** What a returned document looks like *)

Lemma obj_lookup_absent (k : string) (fs : list (string * value)) :
  k ∉ fs.*1 → obj_lookup k fs = None.
Proof.
  induction fs as [|[k' v] fs IH]; [done|]. simpl. intros Hk.
  apply not_elem_of_cons in Hk as [Hne Hk].
  apply String.eqb_neq in Hne. rewrite Hne. by apply IH.
Qed.

Lemma obj_lookup_spread (k : string) (base more : list (string * value)) :
  NoDup more.*1 →
  obj_lookup k (obj_spread base more)
  = match obj_lookup k more with
    | Some v => Some v
    | None => obj_lookup k base
    end.
Proof.
  unfold obj_spread. revert base.
  induction more as [|[k' v'] more IH]; intros base Hnodup; [done|].
  apply NoDup_cons in Hnodup as [Hfresh Hnodup].
  cbn [fold_left fst snd obj_lookup]. rewrite IH by done.
  destruct (String.eqb_spec k k') as [->|Hne].
  - by rewrite obj_lookup_absent, obj_lookup_set.
  - by rewrite obj_lookup_set_ne.
Qed.

(** X4.  In every list answer a document is returned with all its stored
    fields unchanged, plus [id] (and, in my-listings, [collection]).  A
    stored field named [id] or [collection] takes precedence: the document
    identifier, or the collection tag, shows only when the document has no
    field of that name. *)
Theorem stored_fields_shadow_id (id collection k : string)
    (fields : list (string * value)) :
  NoDup fields.*1 →
  get_prop (Index.with_id (id, fields)) k
    = match obj_lookup k fields with
      | Some v => v
      | None => if String.eqb k "id" then VStr id else VUndefined
      end
  ∧ get_prop (Index.tagged collection (id, fields)) k
    = match obj_lookup k fields with
      | Some v => v
      | None =>
          if String.eqb k "id" then VStr id
          else if String.eqb k "collection" then VStr collection
          else VUndefined
      end.
Proof.
  intros Hnodup. unfold Index.with_id, Index.tagged. cbn [get_prop fst snd].
  rewrite !obj_lookup_spread by done.
  destruct (obj_lookup k fields); [done|]. cbn [obj_lookup].
  destruct (String.eqb k "id"); [done|]. by destruct (String.eqb k "collection").
Qed.

Lemma stored_fields_shadow_id_witness :
  NoDup [("id", VStr "sku-7"); ("name", VStr "Cement")].*1
  ∧ get_prop (Index.with_id ("0", [("id", VStr "sku-7"); ("name", VStr "Cement")])) "id"
    = VStr "sku-7".
Proof.
  assert (NoDup [("id", VStr "sku-7"); ("name", VStr "Cement")].*1) as Hnodup.
  { simpl. apply NoDup_cons. split; [|apply NoDup_singleton].
    rewrite list_elem_of_singleton. discriminate. }
  split; [exact Hnodup|].
  exact (proj1 (stored_fields_shadow_id "0" "materials" "id"
                  [("id", VStr "sku-7"); ("name", VStr "Cement")] Hnodup)).
Defined.

(** ** The public lists *)

(** X5.  GET /api/equipment, /api/materials and /api/contractors each make
    one call, reading their own collection.  On the in-memory store the
    answer is 200 with one element for every stored document of that
    collection and the store is left as it was; when the read is rejected
    the answer is 500 with the text "Something went wrong". *)
Theorem public_lists_return_all (w : world) :
  Forall
    (λ route : prog response * string,
       (∃ listings,
          run serve route.1 w
            = RunResult (Returned (send 200 (VArr listings))) w [DbGet route.2]
          ∧ length listings = size (docs_of w route.2)
          ∧ ∀ id fields, docs_of w route.2 !! id = Some fields
                         → Index.with_id (id, fields) ∈ listings)
       ∧ ∀ (S : Type) (e : env S) (s : S) x,
           (e (DbGet route.2) s).1 = Rejected x →
           run e route.1 s
             = RunResult (Returned (send 500 (VStr "Something went wrong")))
                 (e (DbGet route.2) s).2 [DbGet route.2])
    [(Index.get_equipment, "equipment"); (Index.get_materials, "materials");
     (Index.get_contractors, "contractors")].
Proof.
  assert (∀ name,
            (∃ listings,
               Index.with_id <$> map_to_list (docs_of w name) = listings
               ∧ length listings = size (docs_of w name)
               ∧ ∀ id fields, docs_of w name !! id = Some fields
                              → Index.with_id (id, fields) ∈ listings)) as Hall.
  { intros name. eexists. split_and!; [done| |].
    - by rewrite length_fmap, length_map_to_list.
    - intros id fields Hdoc. apply list_elem_of_fmap. exists (id, fields).
      split; [done|]. by apply elem_of_map_to_list. }
  repeat constructor; cbn [fst snd].
  all: try (intros S e s x Hx;
    unfold Index.get_equipment, Index.get_materials, Index.get_contractors; step;
    destruct (e (DbGet _) s) as [r s']; simpl in Hx; subst r; by step).
  - destruct (Hall "equipment") as (l & <- & ? & ?). eexists. by split_and!.
  - destruct (Hall "materials") as (l & <- & ? & ?). eexists. by split_and!.
  - destruct (Hall "contractors") as (l & <- & ? & ?). eexists. by split_and!.
Qed.

(** ** Listing creation: the type decides the collection *)

(** X6.  When the four required fields are there but [listingType] is none
    of the texts Equipment, Material, Contractor (the comparison is exact,
    so "material" does not count), add-listing answers 400 with "Invalid
    listing type." and calls nothing, in src/index.js and part_001. *)
Theorem add_listing_unknown_type {rt : Runtime} {S : Type}
    (e : env S) (s : S) (body : value) :
  parsed_body body = true →
  Index.listing_fields_missing (get_prop body "listingType") (get_prop body "name")
    (get_prop body "price") (get_prop body "merchantId") = false →
  Index.is_text (get_prop body "listingType") "Equipment" = false →
  Index.is_text (get_prop body "listingType") "Material" = false →
  Index.is_text (get_prop body "listingType") "Contractor" = false →
  run e (Index.add_listing body) s
    = RunResult (Returned (send 400 (VObj [("error", VStr "Invalid listing type.")]))) s []
  ∧ run e (Part001.add_listing body) s
    = RunResult (Returned (send 400 (VObj [("error", VStr "Invalid listing type.")]))) s [].
Proof.
  intros Hbody Hpresent HE HM HC.
  unfold Index.add_listing, Part001.add_listing.
  rewrite !get_parsed by done. step. rewrite Hpresent, HE, HM, HC. by step.
Qed.

Lemma add_listing_unknown_type_witness :
  Index.is_text (get_prop Sample.lowercase_material_request "listingType") "Material" = false
  ∧ run serve (Index.add_listing (rt:=Sample.runtime) Sample.lowercase_material_request)
        (Sample.world_up ∅)
      = RunResult (Returned (send 400 (VObj [("error", VStr "Invalid listing type.")])))
          (Sample.world_up ∅) [].
Proof.
  split; [reflexivity|].
  apply (add_listing_unknown_type (rt:=Sample.runtime) serve (Sample.world_up ∅)
           Sample.lowercase_material_request); reflexivity.
Defined.

(** X7.  Whatever the request and whatever the database answers,
    add-listing makes at most one call, and that call adds a document to
    equipment, materials or contractors, according to whether
    [listingType] is Equipment, Material or Contractor; the document
    carries the [name] and [merchantId] of the request.  This holds in
    src/index.js and part_001. *)
Theorem add_listing_adds_once {rt : Runtime} {S : Type}
    (e : env S) (s : S) (body : value) :
  Forall
    (λ tr : list call,
       tr = []
       ∨ ∃ name data,
           tr = [DbAdd name data]
           ∧ (Index.is_text (get_prop body "listingType") "Equipment" = true
                ∧ name = "equipment"
              ∨ Index.is_text (get_prop body "listingType") "Material" = true
                ∧ name = "materials"
              ∨ Index.is_text (get_prop body "listingType") "Contractor" = true
                ∧ name = "contractors")
           ∧ get_prop data "name" = get_prop body "name"
           ∧ get_prop data "merchantId" = get_prop body "merchantId")
    [trace (run e (Index.add_listing body) s); trace (run e (Part001.add_listing body) s)].
Proof.
  apply Forall_cons. split; [|apply Forall_cons; split; [|by apply Forall_nil]].
  - unfold Index.add_listing.
    destruct body; step; try (by left).
    all: destruct (Index.listing_fields_missing _ _ _ _); step; [by left|].
    all: destruct (Index.is_text _ "Equipment") eqn:HE;
      [|destruct (Index.is_text _ "Material") eqn:HM;
        [|destruct (Index.is_text _ "Contractor") eqn:HC; [|by left]]].
    all: destruct (to_number _) as [n|x]; step; [|by left].
    all: destruct (e (DbAdd _ _) s) as [[id|x] s']; step.
    all: right; eexists _, _; split_and!; [done| |done..]; tauto.
  - unfold Part001.add_listing.
    destruct body; step; try (by left).
    all: destruct (Index.listing_fields_missing _ _ _ _); step; [by left|].
    all: destruct (Index.is_text _ "Equipment") eqn:HE;
      [|destruct (Index.is_text _ "Material") eqn:HM;
        [|destruct (Index.is_text _ "Contractor") eqn:HC; [|by left]]].
    all: destruct (to_number _) as [n|x]; step; [|by left].
    all: destruct (e (DbAdd _ _) s) as [[id|x] s']; step.
    all: right; eexists _, _; split_and!; [done| |done..]; tauto.
Qed.

(** ** Equipment and contractors: create, then read *)

(** X8.  On the in-memory store, when add-listing of src/index.js has
    created a listing of type Equipment under [id], GET /api/equipment
    holds a document with that [id], the submitted [name], [description]
    and [merchantId], [dailyRentalPrice] equal to [Number(price)], category
    General and availability Available.  The document part_001 stores has
    the price under [rate] instead, next to the submitted [rateType]. *)
Theorem equipment_round_trip {rt : Runtime} (w : world) (body : value) (id : string) :
  Index.is_text (get_prop body "listingType") "Equipment" = true →
  (result (run serve (Index.add_listing body) w) = Returned (Index.created id) →
   ∃ (price : float) (listings : list value) (listing : value),
     to_number (get_prop body "price") = Normal price
     ∧ result (run serve Index.get_equipment (final (run serve (Index.add_listing body) w)))
       = Returned (send 200 (VArr listings))
     ∧ listing ∈ listings
     ∧ get_prop listing "id" = VStr id
     ∧ get_prop listing "name" = get_prop body "name"
     ∧ get_prop listing "description" = get_prop body "description"
     ∧ get_prop listing "merchantId" = get_prop body "merchantId"
     ∧ get_prop listing "dailyRentalPrice" = VNum price
     ∧ get_prop listing "category" = VStr "General"
     ∧ get_prop listing "availabilityStatus" = VStr "Available")
  ∧ (result (run serve (Part001.add_listing body) w) = Returned (Index.created id) →
     ∃ (price : float) (listings : list value) (listing : value),
       to_number (get_prop body "price") = Normal price
       ∧ result (run serve Index.get_equipment
                   (final (run serve (Part001.add_listing body) w)))
         = Returned (send 200 (VArr listings))
       ∧ listing ∈ listings
       ∧ get_prop listing "id" = VStr id
       ∧ get_prop listing "rate" = VNum price
       ∧ get_prop listing "rateType" = get_prop body "rateType"
       ∧ get_prop listing "dailyRentalPrice" = VUndefined).
Proof.
  intros Htype%is_text_eq.
  split; intros Hcreated; revert Hcreated;
    unfold Index.add_listing, Part001.add_listing, Index.get_equipment;
    (destruct body; step; try discriminate);
    rewrite Htype; cbn [Index.is_text String.eqb Ascii.eqb Bool.eqb];
    (destruct (Index.listing_fields_missing _ _ _ _); step; [discriminate|]);
    (destruct (to_number _) as [price|x]; step; [|discriminate]);
    unfold Index.equipment_data, Part001.equipment_data; cbn [serve];
    (destruct (has_undefined _); step; [discriminate|]);
    intros [= <-]; rewrite docs_of_with_docs;
    eexists price, _, _; (split; [done|]); (split; [done|]);
    (split;
     [apply list_elem_of_fmap; eexists (_, _); (split; [done|]);
      apply elem_of_map_to_list, lookup_insert_eq|]);
    by split_and!.
Qed.

Lemma equipment_round_trip_witness :
  result (run serve (Index.add_listing (rt:=Sample.runtime) Sample.equipment_request)
            (Sample.world_up ∅))
    = Returned (Index.created "0")
  ∧ ∃ (price : float) (listings : list value) (listing : value),
      to_number (rt:=Sample.runtime) (get_prop Sample.equipment_request "price") = Normal price
      ∧ result (run serve Index.get_equipment
                  (final (run serve (Index.add_listing (rt:=Sample.runtime)
                                       Sample.equipment_request) (Sample.world_up ∅))))
        = Returned (send 200 (VArr listings))
      ∧ listing ∈ listings
      ∧ get_prop listing "id" = VStr "0"
      ∧ get_prop listing "name" = get_prop Sample.equipment_request "name"
      ∧ get_prop listing "description" = get_prop Sample.equipment_request "description"
      ∧ get_prop listing "merchantId" = get_prop Sample.equipment_request "merchantId"
      ∧ get_prop listing "dailyRentalPrice" = VNum price
      ∧ get_prop listing "category" = VStr "General"
      ∧ get_prop listing "availabilityStatus" = VStr "Available".
Proof.
  split; [vm_compute; reflexivity|].
  destruct (equipment_round_trip (rt:=Sample.runtime) (Sample.world_up ∅)
              Sample.equipment_request "0" eq_refl) as [H _].
  apply H. vm_compute. reflexivity.
Defined.

(** X9.  On the in-memory store, when add-listing has created a listing of
    type Contractor under [id], GET /api/contractors holds a document with
    that [id] whose [bio] is the submitted [description], whose [rate] is
    [Number(price)] and whose [profileImageUrl] is the submitted
    [imageUrl], with the submitted [name], [merchantId], [rateType] and
    [specialization]; it has no [description] or [imageUrl] field. *)
Theorem contractor_round_trip {rt : Runtime} (w : world) (body : value) (id : string) :
  Index.is_text (get_prop body "listingType") "Contractor" = true →
  result (run serve (Index.add_listing body) w) = Returned (Index.created id) →
  ∃ (price : float) (listings : list value) (listing : value),
    to_number (get_prop body "price") = Normal price
    ∧ result (run serve Index.get_contractors (final (run serve (Index.add_listing body) w)))
      = Returned (send 200 (VArr listings))
    ∧ listing ∈ listings
    ∧ get_prop listing "id" = VStr id
    ∧ get_prop listing "name" = get_prop body "name"
    ∧ get_prop listing "bio" = get_prop body "description"
    ∧ get_prop listing "rate" = VNum price
    ∧ get_prop listing "profileImageUrl" = get_prop body "imageUrl"
    ∧ get_prop listing "merchantId" = get_prop body "merchantId"
    ∧ get_prop listing "rateType" = get_prop body "rateType"
    ∧ get_prop listing "specialization" = get_prop body "specialization"
    ∧ get_prop listing "description" = VUndefined
    ∧ get_prop listing "imageUrl" = VUndefined.
Proof.
  intros Htype%is_text_eq Hcreated. revert Hcreated.
  unfold Index.add_listing, Index.get_contractors.
  destruct body; step; try discriminate.
  rewrite Htype. cbn [Index.is_text String.eqb Ascii.eqb Bool.eqb].
  destruct (Index.listing_fields_missing _ _ _ _); step; [discriminate|].
  destruct (to_number _) as [price|x]; step; [|discriminate].
  unfold Index.contractor_data. cbn [serve].
  destruct (has_undefined _); step; [discriminate|].
  intros [= <-]. rewrite docs_of_with_docs.
  eexists price, _, _. split; [done|]. split; [done|]. split.
  { apply list_elem_of_fmap. eexists (_, _). split; [done|].
    apply elem_of_map_to_list, lookup_insert_eq. }
  by split_and!.
Qed.

Lemma contractor_round_trip_witness :
  result (run serve (Index.add_listing (rt:=Sample.runtime) Sample.contractor_request)
            (Sample.world_up ∅))
    = Returned (Index.created "0")
  ∧ ∃ (price : float) (listings : list value) (listing : value),
      to_number (rt:=Sample.runtime) (get_prop Sample.contractor_request "price") = Normal price
      ∧ result (run serve Index.get_contractors
                  (final (run serve (Index.add_listing (rt:=Sample.runtime)
                                       Sample.contractor_request) (Sample.world_up ∅))))
        = Returned (send 200 (VArr listings))
      ∧ listing ∈ listings
      ∧ get_prop listing "id" = VStr "0"
      ∧ get_prop listing "name" = get_prop Sample.contractor_request "name"
      ∧ get_prop listing "bio" = get_prop Sample.contractor_request "description"
      ∧ get_prop listing "rate" = VNum price
      ∧ get_prop listing "profileImageUrl" = get_prop Sample.contractor_request "imageUrl"
      ∧ get_prop listing "merchantId" = get_prop Sample.contractor_request "merchantId"
      ∧ get_prop listing "rateType" = get_prop Sample.contractor_request "rateType"
      ∧ get_prop listing "specialization"
        = get_prop Sample.contractor_request "specialization"
      ∧ get_prop listing "description" = VUndefined
      ∧ get_prop listing "imageUrl" = VUndefined.
Proof.
  split; [vm_compute; reflexivity|].
  apply (contractor_round_trip (rt:=Sample.runtime) (Sample.world_up ∅)
           Sample.contractor_request "0"); vm_compute; reflexivity.
Defined.

(** ** Delete, update and cancel on the store *)

Lemma docs_of_with_docs_ne (w : world) (collection name : string)
    (docs : gmap string (list (string * value))) :
  name ≠ collection → docs_of (with_docs w collection docs) name = docs_of w name.
Proof. intros Hne. unfold docs_of, with_docs. simpl. by rewrite lookup_insert_ne. Qed.

Lemma with_docs_twice (w : world) (collection : string)
    (docs docs' : gmap string (list (string * value))) :
  with_docs (with_docs w collection docs) collection docs' = with_docs w collection docs'.
Proof. unfold with_docs. simpl. by rewrite insert_insert_eq. Qed.

(** X10.  On the store behind the client's path handling, delete-listing
    answers 500 and changes nothing when [listingId] is no path to a
    document below the collection (as [a/b], an even number of segments, or
    a path with two slashes in a row): the client throws before any
    request is made.  When [listingId] is a name the backend accepts, the
    answer is 200 whether or not the listing exists; afterwards the
    collection has no document of that name, every other document and
    every other collection is as before, and deleting again changes
    nothing. *)
Theorem delete_listing_removes (w : world) (collectionName listingId : string) :
  collectionName ∈ Index.listing_collections →
  let once := run serve_paths (Index.delete_listing collectionName listingId) w in
  let twice := run serve_paths (Index.delete_listing collectionName listingId) (final once) in
  trace once = [DbDelete collectionName listingId]
  ∧ (doc_ref collectionName listingId = None →
     result once = Returned (send 500 (VObj [("error", VStr "Failed to remove listing.")]))
     ∧ final once = w)
  ∧ (resource_id listingId = true →
     doc_ref collectionName listingId = Some ([collectionName], listingId)
     ∧ result once
       = Returned (send 200 (VObj [("message", VStr "Listing removed successfully!")]))
     ∧ docs_of (final once) collectionName !! listingId = None
     ∧ (∀ id, id ≠ listingId →
              docs_of (final once) collectionName !! id = docs_of w collectionName !! id)
     ∧ (∀ name, name ≠ collectionName → docs_of (final once) name = docs_of w name)
     ∧ result twice = result once
     ∧ final twice = final once).
Proof.
  intros Hin. cbv zeta. unfold Index.delete_listing.
  rewrite includes_spec, bool_decide_eq_true_2 by done. step.
  split; [by destruct (serve_paths (DbDelete collectionName listingId) w) as [[u|x] w']|].
  unfold serve_paths, at_document. split.
  - intros ->. by step.
  - intros Hid. pose proof Hid as Hid'. unfold resource_id in Hid'.
    repeat (apply andb_prop in Hid' as [Hid' ?]).
    rewrite doc_ref_slash_free by (done || by apply segments_listing_collection).
    destruct (String.eqb listingId ""); [done|].
    assert (forallb resource_id ([collectionName] ++ [listingId]) = true) as ->.
    { cbn [app forallb]. rewrite Hid, andb_true_r.
      unfold Index.listing_collections in Hin.
      repeat (apply elem_of_cons in Hin as [->|Hin]; [reflexivity|]).
      by apply elem_of_nil in Hin. }
    change (String.concat "/" [collectionName]) with collectionName.
    cbn [serve]. step. rewrite docs_of_with_docs, with_docs_twice.
    split_and!; try done.
    + apply lookup_delete_eq.
    + intros id Hne. by apply lookup_delete_ne.
    + intros name Hne. by apply docs_of_with_docs_ne.
    + by rewrite delete_delete_eq.
Qed.

Lemma delete_listing_removes_witness :
  "materials" ∈ Index.listing_collections
  ∧ doc_ref "materials" "a/b" = None
  ∧ result (run serve_paths (Index.delete_listing "materials" "a/b")
              (Sample.world_up Sample.some_materials))
    = Returned (send 500 (VObj [("error", VStr "Failed to remove listing.")]))
  ∧ resource_id "c1" = true
  ∧ docs_of (final (run serve_paths (Index.delete_listing "materials" "c1")
                      (Sample.world_up Sample.some_materials))) "materials" !! "c1"
    = None.
Proof.
  assert ("materials" ∈ Index.listing_collections) as Hin.
  { apply list_elem_of_In. right. left. reflexivity. }
  split; [exact Hin|]. split; [reflexivity|].
  destruct (delete_listing_removes (Sample.world_up Sample.some_materials)
              "materials" "a/b" Hin) as (_ & Hbad & _).
  split; [exact (proj1 (Hbad eq_refl))|]. split; [reflexivity|].
  destruct (delete_listing_removes (Sample.world_up Sample.some_materials)
              "materials" "c1" Hin) as (_ & _ & Hok).
  exact (proj1 (proj2 (proj2 (Hok eq_refl)))).
Defined.



(** X12.  On the store behind the client's path handling, a patch of one
    field whose name has one of the characters [* ~ / [ ]] is refused by
    the client: update-listing answers 500 and nothing is written.  When a
    patch of one field without a dot in its name is answered with 200, for
    an identifier that is an accepted name, the listing existed and now has
    exactly that field set: its other fields, the other listings and the
    other collections are as before.  No field is protected: [merchantId]
    can be set like any other. *)
Theorem update_listing_sets_field (w : world) (collectionName listingId k : string)
    (v : value) :
  collectionName ∈ Index.listing_collections →
  let r := run serve_paths
             (Index.update_listing collectionName listingId (VObj [(k, v)])) w in
  (forallb field_char (list_ascii_of_string k) = false →
   result r = Returned (send 500 (VObj [("error", VStr "Failed to update listing.")]))
   ∧ final r = w)
  ∧ (resource_id listingId = true → field_path k = [k] →
     result r = Returned (send 200 (VObj [("message", VStr "Listing updated successfully!")])) →
     forallb field_char (list_ascii_of_string k) = true
     ∧ (∃ fields fields',
          docs_of w collectionName !! listingId = Some fields
          ∧ docs_of (final r) collectionName !! listingId = Some fields'
          ∧ obj_lookup k fields' = Some v
          ∧ ∀ k', k' ≠ k → obj_lookup k' fields' = obj_lookup k' fields)
     ∧ (∀ id, id ≠ listingId →
              docs_of (final r) collectionName !! id = docs_of w collectionName !! id)
     ∧ (∀ name, name ≠ collectionName → docs_of (final r) name = docs_of w name)).
Proof.
  intros Hin. cbv zeta. unfold Index.update_listing.
  rewrite includes_spec, bool_decide_eq_true_2 by done. step.
  cbn [serve_paths]. unfold at_document. split.
  - intros Hk.
    destruct (doc_ref collectionName listingId) as [[parent name]|]; [|by step].
    destruct (forallb resource_id (parent ++ [name])); [|by step].
    cbn [serve]. unfold valid_patch. cbn [forallb fst snd]. rewrite Hk.
    rewrite !andb_false_r, andb_false_l. by step.
  - intros Hid Hpath. pose proof Hid as Hid'. unfold resource_id in Hid'.
    repeat (apply andb_prop in Hid' as [Hid' ?]).
    rewrite doc_ref_slash_free by (done || by apply segments_listing_collection).
    destruct (String.eqb listingId ""); [done|].
    assert (forallb resource_id ([collectionName] ++ [listingId]) = true) as ->.
    { cbn [app forallb]. rewrite Hid, andb_true_r.
      unfold Index.listing_collections in Hin.
      repeat (apply elem_of_cons in Hin as [->|Hin]; [reflexivity|]).
      by apply elem_of_nil in Hin. }
    change (String.concat "/" [collectionName]) with collectionName. cbn [serve].
    destruct (valid_patch [(k, v)]) eqn:Hpatch; [|by step].
    destruct (docs_of w collectionName !! listingId) as [fields|] eqn:Hdoc; [|by step].
    step. intros _. rewrite docs_of_with_docs.
    unfold apply_patch. cbn [fold_left fst snd]. rewrite Hpath. cbn [set_path].
    split_and!.
    + unfold valid_patch in Hpatch. cbn [forallb fst snd] in Hpatch.
      apply andb_prop in Hpatch as [Hpatch _]. apply andb_prop in Hpatch as [_ Hpatch].
      rewrite andb_true_r in Hpatch. by apply andb_prop in Hpatch as [Hpatch _].
    + exists fields. eexists. split; [done|]. split; [apply lookup_insert_eq|].
      split; [apply obj_lookup_set|]. intros k' Hne. by apply obj_lookup_set_ne.
    + intros id Hne. by apply lookup_insert_ne.
    + intros name Hne. by apply docs_of_with_docs_ne.
Qed.

Lemma update_listing_sets_field_witness :
  "materials" ∈ Index.listing_collections
  ∧ forallb field_char (list_ascii_of_string "a/b") = false
  ∧ result (run serve_paths (Index.update_listing "materials" "c1" (VObj [("a/b", VStr "x")]))
              (Sample.world_up Sample.some_materials))
    = Returned (send 500 (VObj [("error", VStr "Failed to update listing.")]))
  ∧ result (run serve_paths
              (Index.update_listing "materials" "c1" (VObj [("merchantId", VStr "m9")]))
              (Sample.world_up Sample.some_materials))
    = Returned (send 200 (VObj [("message", VStr "Listing updated successfully!")]))
  ∧ ∃ fields fields',
      docs_of (Sample.world_up Sample.some_materials) "materials" !! "c1" = Some fields
      ∧ docs_of (final (run serve_paths
                          (Index.update_listing "materials" "c1"
                             (VObj [("merchantId", VStr "m9")]))
                          (Sample.world_up Sample.some_materials))) "materials" !! "c1"
        = Some fields'
      ∧ obj_lookup "merchantId" fields' = Some (VStr "m9")
      ∧ ∀ k', k' ≠ "merchantId" → obj_lookup k' fields' = obj_lookup k' fields.
Proof.
  assert ("materials" ∈ Index.listing_collections) as Hin.
  { apply list_elem_of_In. right. left. reflexivity. }
  split; [exact Hin|]. split; [reflexivity|].
  destruct (update_listing_sets_field (Sample.world_up Sample.some_materials)
              "materials" "c1" "a/b" (VStr "x") Hin) as [Hbad _].
  split; [exact (proj1 (Hbad eq_refl))|].
  assert (result (run serve_paths
                    (Index.update_listing "materials" "c1" (VObj [("merchantId", VStr "m9")]))
                    (Sample.world_up Sample.some_materials))
          = Returned (send 200 (VObj [("message", VStr "Listing updated successfully!")])))
    as Hok.
  { vm_compute. reflexivity. }
  split; [exact Hok|].
  destruct (update_listing_sets_field (Sample.world_up Sample.some_materials)
              "materials" "c1" "merchantId" (VStr "m9") Hin) as [_ Hset].
  exact (proj1 (proj2 (Hset eq_refl eq_refl Hok))).
Defined.


(** ** A booking, once created, is stored and listed *)

Lemma run_serve_keeps_docs {A} (p : prog A) (w : world) (name : string) :
  all_calls (λ c, is_write c = false) p →
  docs_of (final (run serve p w)) name = docs_of w name.
Proof. intros Hp. unfold docs_of. by rewrite run_serve_keeps_db. Qed.

Lemma after_add_reads {rt : Runtime} (bookingId : string)
    (userId cartItems totalPrice siteLocation : value) :
  all_calls (λ c, is_write c = false)
    (after_add bookingId userId cartItems totalPrice siteLocation).
Proof. unfold after_add, Index.send_confirmation. calls; done. Qed.

Lemma after_add_result {rt : Runtime} {S : Type} (e : env S) (s : S) (bookingId : string)
    (userId cartItems totalPrice siteLocation : value) :
  result (run e (after_add bookingId userId cartItems totalPrice siteLocation) s)
  = Returned (send 201 (VObj [("message", VStr "Booking created successfully!");
                              ("bookingId", VStr bookingId)])).
Proof.
  unfold after_add, Index.send_confirmation. step.
  destruct (e (AuthGetUser _) s) as [[user|x] s1]; step; [|done].
  destruct (Index.confirmation_mail _ _ _ _ _) as [mailOptions|x]; step; [|done].
  by destruct (e (SendMail mailOptions) s1) as [[u|x] s2].
Qed.

Lemma create_booking_on_store {rt : Runtime} (w : world) (body : value) (id : string) :
  result (run serve (Index.create_booking body) w)
    = Returned (send 201 (VObj [("message", VStr "Booking created successfully!");
                                ("bookingId", VStr id)])) →
  let after := final (run serve (Index.create_booking body) w) in
  ∃ fields,
    VObj fields
      = Index.booking_doc (get_prop body "userId") (get_prop body "cartItems")
          (get_prop body "totalPrice") (get_prop body "paymentDetails")
          (get_prop body "siteLocation") (clock w)
    ∧ docs_of w "bookings" !! id = None
    ∧ docs_of after "bookings" = <[id := fields]> (docs_of w "bookings")
    ∧ size (docs_of after "bookings") = S (size (docs_of w "bookings"))
    ∧ (∀ name, name ≠ "bookings" → docs_of after name = docs_of w name).
Proof.
  intros Hcreated. cbv zeta. revert Hcreated.
  unfold Index.create_booking.
  destruct body; step; try discriminate.
  all: destruct (Index.booking_info_missing _ _ _); step; try discriminate.
  all: unfold Index.booking_doc; cbn [serve fst snd].
  all: destruct (has_undefined _); step; try discriminate.
  change (docs_of (World (db w) ?c ?a ?r ?o ?g) "bookings") with (docs_of w "bookings").
  match goal with
  | |- context [Index.send_confirmation ?b ?u ?c ?t ?l] => fold (after_add b u c t l)
  end.
  rewrite after_add_result. intros [= <-].
  rewrite run_serve_keeps_docs, docs_of_with_docs by apply after_add_reads.
  assert (docs_of w "bookings" !! fresh (dom (docs_of w "bookings")) = None) as Hfresh.
  { apply not_elem_of_dom, is_fresh. }
  eexists. split_and!; [done|done|done| |].
  - by rewrite map_size_insert_None.
  - intros name Hne.
    rewrite run_serve_keeps_docs by apply after_add_reads.
    by rewrite docs_of_with_docs_ne.
Qed.

(** X14.  On the in-memory store, when create-booking of src/index.js has
    answered 201 with [id], the bookings collection holds one document more
    than before, stored under [id], an identifier that was not in use: the
    document the handler built, with status Confirmed and the clock's
    reading as [bookingDate].  The bookings that were there and the other
    collections are untouched, whatever became of the email. *)
Theorem create_booking_stores {rt : Runtime} (w : world) (body : value) (id : string) :
  result (run serve (Index.create_booking body) w)
    = Returned (send 201 (VObj [("message", VStr "Booking created successfully!");
                                ("bookingId", VStr id)])) →
  let after := final (run serve (Index.create_booking body) w) in
  ∃ fields,
    VObj fields
      = Index.booking_doc (get_prop body "userId") (get_prop body "cartItems")
          (get_prop body "totalPrice") (get_prop body "paymentDetails")
          (get_prop body "siteLocation") (clock w)
    ∧ docs_of w "bookings" !! id = None
    ∧ docs_of after "bookings" = <[id := fields]> (docs_of w "bookings")
    ∧ size (docs_of after "bookings") = S (size (docs_of w "bookings"))
    ∧ (∀ name, name ≠ "bookings" → docs_of after name = docs_of w name).
Proof. apply create_booking_on_store. Qed.

Lemma create_booking_stores_witness :
  result (run serve (Index.create_booking (rt:=Sample.runtime) Sample.booking_request)
            Sample.world_lookup_down)
    = Returned (send 201 (VObj [("message", VStr "Booking created successfully!");
                                ("bookingId", VStr "0")]))
  ∧ size (docs_of (final (run serve (Index.create_booking (rt:=Sample.runtime)
                                        Sample.booking_request) Sample.world_lookup_down))
            "bookings")
    = S (size (docs_of Sample.world_lookup_down "bookings")).
Proof.
  assert (result (run serve (Index.create_booking (rt:=Sample.runtime) Sample.booking_request)
                    Sample.world_lookup_down)
          = Returned (send 201 (VObj [("message", VStr "Booking created successfully!");
                                      ("bookingId", VStr "0")]))) as Hcreated.
  { vm_compute. reflexivity. }
  split; [exact Hcreated|].
  destruct (create_booking_stores (rt:=Sample.runtime) Sample.world_lookup_down
              Sample.booking_request "0" Hcreated) as (fields & _ & _ & _ & Hsize & _).
  exact Hsize.
Defined.

Lemma my_bookings_listed {rt : Runtime} (w : world) (userId : string) :
  (∀ id fields,
     docs_of w "bookings" !! id = Some fields →
     obj_lookup "clientId" fields = Some (VStr userId) →
     is_Some (booking_time (Index.with_id (id, fields)))) →
  ∃ bookings : list value,
    result (run serve (Index.my_bookings userId) w) = Returned (send 200 (VArr bookings))
    ∧ ∀ id fields,
        docs_of w "bookings" !! id = Some fields →
        obj_lookup "clientId" fields = Some (VStr userId) →
        Index.with_id (id, fields) ∈ bookings.
Proof.
  intros Hdates.
  set (matching := filter (λ d, field_equals "clientId" userId d.2 = true)
                     (map_to_list (docs_of w "bookings"))).
  assert (∀ d, d ∈ matching
               ↔ docs_of w "bookings" !! d.1 = Some d.2
                 ∧ obj_lookup "clientId" d.2 = Some (VStr userId)) as Hmatching.
  { intros [id fields]. unfold matching.
    rewrite list_elem_of_filter, elem_of_map_to_list, field_equals_spec. simpl. tauto. }
  destruct (array_sort_valid (Index.with_id <$> matching)) as (l & Hsort & Hperm & _).
  { apply Forall_fmap, Forall_forall. intros [id fields] [? ?]%Hmatching. by apply Hdates. }
  assert (∀ id fields,
            docs_of w "bookings" !! id = Some fields →
            obj_lookup "clientId" fields = Some (VStr userId) →
            Index.with_id (id, fields) ∈ l) as Hin.
  { intros id fields ? ?. rewrite Hperm. apply list_elem_of_fmap. exists (id, fields).
    split; [done|]. by apply Hmatching. }
  unfold Index.my_bookings. step. cbn [serve]. fold matching. step.
  destruct matching as [|d rest] eqn:Hm.
  - exists []. split; [done|]. intros id fields Hdoc Hclient.
    assert ((id, fields) ∈ @nil (string * list (string * value))) as Hnil
      by (by apply Hmatching).
    by apply elem_of_nil in Hnil.
  - exists l. split; [|done]. rewrite Hsort. by step.
Qed.

(** X15.  On the in-memory store, a booking that create-booking of
    src/index.js has created for a [userId] that is a string is then listed
    by my-bookings for that user, with the identifier of the answer, status
    Confirmed and the submitted items, total and site location; provided
    [new Date] reads back the date the handler wrote, and the dates of the
    user's earlier bookings. *)
Theorem booking_round_trip {rt : Runtime} (w : world) (body : value)
    (userId id : string) (t : Z) :
  get_prop body "userId" = VStr userId →
  result (run serve (Index.create_booking body) w)
    = Returned (send 201 (VObj [("message", VStr "Booking created successfully!");
                                ("bookingId", VStr id)])) →
  date_time_value (VStr (date_to_iso (clock w))) = Normal (Some t) →
  (∀ id' fields,
     docs_of w "bookings" !! id' = Some fields →
     obj_lookup "clientId" fields = Some (VStr userId) →
     is_Some (booking_time (Index.with_id (id', fields)))) →
  ∃ (bookings : list value) (booking : value),
    result (run serve (Index.my_bookings userId)
              (final (run serve (Index.create_booking body) w)))
      = Returned (send 200 (VArr bookings))
    ∧ booking ∈ bookings
    ∧ get_prop booking "id" = VStr id
    ∧ get_prop booking "clientId" = VStr userId
    ∧ get_prop booking "status" = VStr "Confirmed"
    ∧ get_prop booking "items" = get_prop body "cartItems"
    ∧ get_prop booking "totalAmount" = get_prop body "totalPrice"
    ∧ get_prop booking "siteLocation" = get_prop body "siteLocation"
    ∧ get_prop booking "bookingDate" = VStr (date_to_iso (clock w)).
Proof.
  intros Huser Hcreated Hdate Hdates.
  destruct (create_booking_on_store w body id Hcreated)
    as (fields & Hfields & Hfresh & Hstored & _ & _).
  unfold Index.booking_doc in Hfields. injection Hfields as ->.
  destruct (my_bookings_listed (final (run serve (Index.create_booking body) w)) userId)
    as (bookings & Hlisted & Hin).
  { intros id' fields'. rewrite Hstored.
    destruct (decide (id' = id)) as [->|Hne].
    - rewrite lookup_insert_eq. intros [= <-] _.
      exists t. unfold booking_time. cbn. by rewrite Hdate.
    - rewrite lookup_insert_ne by done. apply Hdates. }
  eexists bookings, _. split; [done|]. split.
  { apply Hin.
    - rewrite Hstored. apply lookup_insert_eq.
    - cbn. by rewrite Huser. }
  cbn. by rewrite Huser.
Qed.

Lemma booking_round_trip_witness :
  ∃ (bookings : list value) (booking : value),
    result (run serve (Index.my_bookings (rt:=Sample.runtime) "u1")
              (final (run serve (Index.create_booking (rt:=Sample.runtime)
                                   Sample.booking_request)
                        (Sample.world_up Sample.some_bookings))))
      = Returned (send 200 (VArr bookings))
    ∧ booking ∈ bookings
    ∧ get_prop booking "id" = VStr "0"
    ∧ get_prop booking "clientId" = VStr "u1"
    ∧ get_prop booking "status" = VStr "Confirmed"
    ∧ get_prop booking "items" = get_prop Sample.booking_request "cartItems"
    ∧ get_prop booking "totalAmount" = get_prop Sample.booking_request "totalPrice"
    ∧ get_prop booking "siteLocation" = get_prop Sample.booking_request "siteLocation"
    ∧ get_prop booking "bookingDate"
      = VStr (date_to_iso (Runtime:=Sample.runtime)
                (clock (Sample.world_up Sample.some_bookings))).
Proof.
  refine (booking_round_trip (rt:=Sample.runtime) (Sample.world_up Sample.some_bookings)
            Sample.booking_request "u1" "0" 1700000000000 eq_refl _ _ _).
  - vm_compute. reflexivity.
  - vm_compute. reflexivity.
  - intros id fields Hdoc Hclient.
    apply elem_of_map_to_list in Hdoc. vm_compute in Hdoc.
    apply list_elem_of_In in Hdoc. simpl in Hdoc.
    destruct Hdoc as [[= <- <-]|[[= <- <-]|[[= <- <-]|[]]]];
      try discriminate Hclient; vm_compute; eauto.
Defined.

(** ** The confirmation email *)

Section Mail.
Context {rt : Runtime}.

Lemma to_string_primitive (v : value) :
  primitive v = true → ∃ text, to_string v = Normal text.
Proof. destruct v; try discriminate; intros _; simpl; eauto. Qed.

Lemma get_truthy (v : value) (k : string) :
  truthy v = true → get v k = Normal (get_prop v k).
Proof. by destruct v. Qed.

Lemma item_lines_plain (items : list value) :
  Forall (λ item, plain_item item = true) items →
  ∃ text, Index.item_lines items = Normal text.
Proof.
  induction items as [|item items IH]; intros Hplain; [by eexists|].
  apply Forall_cons in Hplain as [Hitem Hplain].
  destruct (IH Hplain) as (more & Hmore).
  assert (get item "name" = Normal (get_prop item "name")
          ∧ get item "quantity" = Normal (get_prop item "quantity")
          ∧ primitive (get_prop item "name") = true
          ∧ primitive (get_prop item "quantity") = true) as (Hn & Hq & Hpn & Hpq).
  { unfold plain_item in Hitem.
    destruct item; try discriminate; apply andb_true_iff in Hitem as [? ?]; done. }
  destruct (to_string_primitive _ Hpn) as (tn & Htn).
  destruct (to_string_primitive _ Hpq) as (tq & Htq).
  cbn [Index.item_lines]. unfold Index.item_line.
  rewrite Hn, Hq, Hmore.
  cbn [mbind completion_bind cbind]. rewrite Htn.
  cbn [mbind completion_bind cbind]. rewrite Htq.
  cbn [mbind completion_bind cbind]. by eexists.
Qed.

Lemma items_list_needs_array (cartItems : value) :
  (∀ items, cartItems ≠ VArr items) → ∃ x, Index.items_list cartItems = Abrupt x.
Proof. intros Hne. destruct cartItems; simpl; eauto. by destruct (Hne elems). Qed.

Lemma confirmation_mail_well_formed_aux (bookingId : string) (user siteLocation : value)
    (items : list value) (total : float) :
  truthy user = true → primitive (get_prop user "email") = true →
  Forall (λ item, plain_item item = true) items →
  truthy siteLocation = true → plain_site siteLocation = true →
  ∃ html,
    Index.confirmation_mail bookingId user (VArr items) (VNum total) siteLocation
    = Normal
        (VObj [("from", VStr ("BuildConnect <" +:+ default "undefined" gmail_address +:+ ">"));
               ("to", get_prop user "email");
               ("subject",
                VStr ("Your BuildConnect Booking Confirmation (#"
                      +:+ substring 0 8 bookingId +:+ ")"));
               ("html", VStr html)]).
Proof.
  intros Huser Hemail Hitems Hsite Hplain.
  unfold Index.confirmation_mail, Index.items_list, Index.mail_options.
  rewrite (get_truthy user) by done. rewrite !(get_truthy siteLocation) by done.
  destruct (item_lines_plain items Hitems) as (lines & Hlines).
  unfold plain_site in Hplain.
  repeat (apply andb_true_iff in Hplain as [Hplain ?]).
  repeat match goal with
         | H : primitive ?v = true |- _ =>
             let text := fresh "text" in
             let Htext := fresh "Htext" in
             destruct (to_string_primitive v H) as (text & Htext); clear H
         end.
  repeat (cbn [mbind mret completion_bind completion_ret cbind to_locale_string];
          first [ rewrite Hlines
                | match goal with H : to_string _ = Normal _ |- _ => rewrite H end ]).
  cbn [mbind mret completion_bind completion_ret cbind to_locale_string]. by eexists.
Qed.

End Mail.

(** X16.  For a request whose cart is an array of items with primitive
    [name] and [quantity], whose [totalPrice] is a number and whose site
    location has primitive fields, and an account with a primitive [email],
    the confirmation message is always built: it is addressed to the
    account's [email], sent in the name of the configured Gmail address, and
    its subject carries the first eight characters of the booking
    identifier. *)
Theorem confirmation_mail_well_formed {rt : Runtime} (bookingId : string)
    (user siteLocation : value) (items : list value) (total : float) :
  truthy user = true → primitive (get_prop user "email") = true →
  Forall (λ item, plain_item item = true) items →
  truthy siteLocation = true → plain_site siteLocation = true →
  ∃ html,
    Index.confirmation_mail bookingId user (VArr items) (VNum total) siteLocation
    = Normal
        (VObj [("from", VStr ("BuildConnect <" +:+ default "undefined" gmail_address +:+ ">"));
               ("to", get_prop user "email");
               ("subject",
                VStr ("Your BuildConnect Booking Confirmation (#"
                      +:+ substring 0 8 bookingId +:+ ")"));
               ("html", VStr html)]).
Proof. apply confirmation_mail_well_formed_aux. Qed.

Lemma confirmation_mail_well_formed_witness :
  ∃ html,
    Index.confirmation_mail (rt:=Sample.runtime) "Ab12Cd34Ef56Gh78Ij90" Sample.account
      (VArr [VObj [("name", VStr "Drill"); ("quantity", VNum 0x2p+0)]])
      (VNum 0x1f4p+0) Sample.site
    = Normal
        (VObj [("from", VStr "BuildConnect <shop@example.com>");
               ("to", VStr "client@example.com");
               ("subject", VStr "Your BuildConnect Booking Confirmation (#Ab12Cd34)");
               ("html", VStr html)]).
Proof.
  apply (confirmation_mail_well_formed (rt:=Sample.runtime) "Ab12Cd34Ef56Gh78Ij90"
           Sample.account Sample.site
           [VObj [("name", VStr "Drill"); ("quantity", VNum 0x2p+0)]] 0x1f4p+0).
  - reflexivity.
  - reflexivity.
  - constructor; [reflexivity|constructor].
  - reflexivity.
  - reflexivity.
Defined.

(** X17.  The check of create-booking in src/index.js lets through a
    [cartItems] that is not an array (a non-empty string, an object with a
    [length]) and a missing [totalPrice].  The booking is then written as
    usual, but no email is ever sent for it: the message cannot be built,
    and the handler goes on to its answer. *)
Theorem create_booking_without_mail {rt : Runtime} {S : Type}
    (e : env S) (s : S) (body : value) :
  parsed_body body = true →
  Index.booking_info_missing (get_prop body "userId") (get_prop body "cartItems")
    (get_prop body "siteLocation") = false →
  (∀ items, get_prop body "cartItems" ≠ VArr items)
  ∨ get_prop body "totalPrice" = VUndefined
  ∨ get_prop body "totalPrice" = VNull →
  ∃ rest,
    trace (run e (Index.create_booking body) s)
    = DateNow
      :: DbAdd "bookings"
           (Index.booking_doc (get_prop body "userId") (get_prop body "cartItems")
              (get_prop body "totalPrice") (get_prop body "paymentDetails")
              (get_prop body "siteLocation") (e DateNow s).1)
      :: rest
    ∧ Forall (λ c, is_send_mail c = false) rest.
Proof.
  intros Hbody Hpresent Hbad.
  assert (∀ bookingId user,
            ∃ x, Index.confirmation_mail bookingId user (get_prop body "cartItems")
                   (get_prop body "totalPrice") (get_prop body "siteLocation")
                 = Abrupt x) as Hmail.
  { intros bookingId user. unfold Index.confirmation_mail.
    destruct (get user "email") as [email|x]; [|by eexists].
    cbn [mbind completion_bind cbind].
    destruct (to_string email) as [text|x]; [|by eexists].
    cbn [mbind completion_bind cbind].
    destruct (Index.items_list _) as [lines|x] eqn:Hlines; [|by eexists].
    cbn [mbind completion_bind cbind].
    destruct Hbad as [Hnot|[Hnone|Hnone]].
    - destruct (items_list_needs_array _ Hnot) as (x & Hx). congruence.
    - unfold Index.mail_options. rewrite Hnone. by eexists.
    - unfold Index.mail_options. rewrite Hnone. by eexists. }
  unfold Index.create_booking, Index.send_confirmation.
  rewrite !get_parsed by done. step. rewrite Hpresent. step.
  destruct (e DateNow s) as [now s1]. step.
  eexists. split; [done|].
  destruct (e (DbAdd "bookings" _) s1) as [[bookingId|x] s2]; step; [|constructor].
  destruct (e (AuthGetUser _) s2) as [[user|x] s3]; step; [|by repeat constructor].
  destruct (Hmail bookingId user) as (x & ->). step. by repeat constructor.
Qed.

Lemma create_booking_without_mail_witness :
  Index.booking_info_missing (get_prop Sample.text_cart_request "userId")
    (get_prop Sample.text_cart_request "cartItems")
    (get_prop Sample.text_cart_request "siteLocation") = false
  ∧ ∃ rest,
      trace (run serve (Index.create_booking (rt:=Sample.runtime) Sample.text_cart_request)
               (Sample.world_up ∅))
      = DateNow
        :: DbAdd "bookings"
             (Index.booking_doc (rt:=Sample.runtime)
                (get_prop Sample.text_cart_request "userId")
                (get_prop Sample.text_cart_request "cartItems")
                (get_prop Sample.text_cart_request "totalPrice")
                (get_prop Sample.text_cart_request "paymentDetails")
                (get_prop Sample.text_cart_request "siteLocation")
                (serve DateNow (Sample.world_up ∅)).1)
        :: rest
      ∧ Forall (λ c, is_send_mail c = false) rest.
Proof.
  split; [reflexivity|].
  apply (create_booking_without_mail (rt:=Sample.runtime) serve (Sample.world_up ∅)
           Sample.text_cart_request).
  - reflexivity.
  - reflexivity.
  - left. intros items. discriminate.
Defined.

(** ** Registration *)

Ltac register_step :=
  cbn [mbind mret Register.prog_bind Register.prog_ret Register.bind Register.try_catch
       Register.lift Register.settle Register.run get fst snd].

(** X18.  register first creates the account, from the [email], [password]
    and [name] of the request, and only when that succeeded writes the
    profile document, into users under the new account's [uid], with
    [name], [email] and [role]; then it answers 201 with the [uid].  A
    rejection of either call is answered 400 with the [message] of the
    error, and nothing more is called: when the profile write fails the
    account stays.  If what was thrown is null or undefined, reading its
    [message] throws in turn and no response is sent. *)
Theorem register_account_then_profile {S : Type} (e : Register.env S) (s : S)
    (body : value) :
  parsed_body body = true →
  let email := get_prop body "email" in
  let name := get_prop body "name" in
  let create :=
    Register.CreateUser (Register.account_properties email (get_prop body "password") name) in
  let refused (error : value) : outcome response :=
    match get error "message" with
    | Normal message => Returned (send 400 (VObj [("error", message)]))
    | Abrupt thrown => Uncaught thrown
    end in
  Register.run e (Register.register body) s
  = match (e create s).1 with
    | Rejected error => (refused error, (e create s).2, [create])
    | Resolved uid =>
        let write :=
          Register.DocSet "users" uid
            (Register.user_doc name email (get_prop body "role")) in
        let written := e write (e create s).2 in
        (match written.1 with
         | Resolved _ =>
             Returned (send 201 (VObj [("message", VStr "User created successfully!");
                                       ("uid", VStr uid)]))
         | Rejected error => refused error
         end, written.2, [create; write])
    end.
Proof.
  intros Hbody. cbv zeta. unfold Register.register.
  rewrite !get_parsed by done. register_step.
  destruct (e (Register.CreateUser _) s) as [[uid|error] s1]; register_step.
  - destruct (e (Register.DocSet _ _ _) s1) as [[u|error] s2]; register_step; [done|].
    by destruct error.
  - by destruct error.
Qed.

Lemma register_account_then_profile_witness :
  parsed_body Sample.registration = true
  ∧ Register.run Sample.profile_store_down (Register.register Sample.registration) tt
    = (Returned (send 400 (VObj [("error", VStr "Missing or insufficient permissions.")])),
       tt,
       [Register.CreateUser
          (Register.account_properties (VStr "client@example.com") (VStr "s3cret!")
             (VStr "Asha"));
        Register.DocSet "users" "uid-1"
          (Register.user_doc (VStr "Asha") (VStr "client@example.com") (VStr "client"))]).
Proof.
  split; [reflexivity|].
  rewrite (register_account_then_profile Sample.profile_store_down tt Sample.registration
             eq_refl).
  reflexivity.
Defined.

(** ** A cancelled booking stays listed *)

Lemma obj_set_NoDup (k : string) (v : value) (fs : list (string * value)) :
  NoDup fs.*1 → NoDup (obj_set k v fs).*1.
Proof.
  assert (∀ k' fs', k' ≠ k → k' ∉ fs'.*1 → k' ∉ (obj_set k v fs').*1) as Hfresh.
  { intros k' fs' Hne. induction fs' as [|[k'' v''] fs' IH].
    - intros _. cbn. rewrite list_elem_of_singleton. done.
    - rewrite fmap_cons. intros [? ?]%not_elem_of_cons. cbn [obj_set].
      destruct (String.eqb k k''); rewrite fmap_cons; apply not_elem_of_cons.
      + cbn. by split.
      + split; [done|]. by apply IH. }
  induction fs as [|[k' v'] fs IH]; intros Hnodup.
  - apply NoDup_singleton.
  - rewrite fmap_cons in Hnodup. apply NoDup_cons in Hnodup as [Hk' Hnodup].
    cbn [obj_set]. destruct (String.eqb_spec k k') as [->|Hne]; rewrite fmap_cons.
    + by apply NoDup_cons.
    + apply NoDup_cons. split; [|by apply IH]. by apply Hfresh.
Qed.

(** X19.  On the in-memory store, a booking that has been cancelled is
    still listed by my-bookings for its client, under the same identifier
    and now with status Cancelled; provided the stored booking has no
    repeated field, and [new Date] can read the dates of the client's
    bookings. *)
Theorem cancelled_booking_stays_listed {rt : Runtime} (w : world)
    (userId bookingId : string) (fields : list (string * value)) :
  docs_of w "bookings" !! bookingId = Some fields →
  obj_lookup "clientId" fields = Some (VStr userId) →
  NoDup fields.*1 →
  obj_lookup "id" fields = None →
  (∀ id' fields',
     docs_of w "bookings" !! id' = Some fields' →
     obj_lookup "clientId" fields' = Some (VStr userId) →
     is_Some (booking_time (Index.with_id (id', fields')))) →
  ∃ (bookings : list value) (booking : value),
    result (run serve (Index.my_bookings userId)
              (final (run serve (Index.cancel_booking bookingId) w)))
      = Returned (send 200 (VArr bookings))
    ∧ booking ∈ bookings
    ∧ get_prop booking "id" = VStr bookingId
    ∧ get_prop booking "status" = VStr "Cancelled"
    ∧ get_prop booking "clientId" = VStr userId.
Proof.
  intros Hdoc Hclient Hnodup Hnoid Hdates.
  assert (docs_of (final (run serve (Index.cancel_booking bookingId) w)) "bookings"
          = <[bookingId := obj_set "status" (VStr "Cancelled") fields]>
              (docs_of w "bookings")) as Hafter.
  { unfold Index.cancel_booking. step. rewrite serve_cancel, Hdoc. step.
    apply docs_of_with_docs. }
  assert (∀ k, k ≠ "status" →
               get_prop (Index.with_id (bookingId, obj_set "status" (VStr "Cancelled") fields)) k
               = get_prop (Index.with_id (bookingId, fields)) k) as Hsame.
  { intros k Hne. unfold Index.with_id. cbn [get_prop fst snd].
    rewrite !obj_lookup_spread by (done || by apply obj_set_NoDup).
    by rewrite obj_lookup_set_ne. }
  destruct (my_bookings_listed (final (run serve (Index.cancel_booking bookingId) w)) userId)
    as (bookings & Hlisted & Hin).
  { intros id' fields'. rewrite Hafter.
    destruct (decide (id' = bookingId)) as [->|Hne].
    - rewrite lookup_insert_eq. intros [= <-] _.
      unfold booking_time. rewrite Hsame by done. by apply Hdates.
    - rewrite lookup_insert_ne by done. apply Hdates. }
  exists bookings, (Index.with_id (bookingId, obj_set "status" (VStr "Cancelled") fields)).
  split; [done|]. split.
  { apply Hin.
    - rewrite Hafter. apply lookup_insert_eq.
    - by rewrite obj_lookup_set_ne. }
  split_and!.
  - rewrite Hsame by done. unfold Index.with_id. cbn [get_prop fst snd].
    rewrite obj_lookup_spread by done. by rewrite Hnoid.
  - unfold Index.with_id. cbn [get_prop fst snd].
    rewrite obj_lookup_spread by (by apply obj_set_NoDup). by rewrite obj_lookup_set.
  - rewrite Hsame by done. unfold Index.with_id. cbn [get_prop fst snd].
    rewrite obj_lookup_spread by done. by rewrite Hclient.
Qed.

Lemma cancelled_booking_stays_listed_witness :
  ∃ (bookings : list value) (booking : value),
    result (run serve (Index.my_bookings (rt:=Sample.runtime) "u1")
              (final (run serve (Index.cancel_booking "b1")
                        (Sample.world_up Sample.some_bookings))))
      = Returned (send 200 (VArr bookings))
    ∧ booking ∈ bookings
    ∧ get_prop booking "id" = VStr "b1"
    ∧ get_prop booking "status" = VStr "Cancelled"
    ∧ get_prop booking "clientId" = VStr "u1".
Proof.
  refine (cancelled_booking_stays_listed (rt:=Sample.runtime)
            (Sample.world_up Sample.some_bookings) "u1" "b1"
            (Sample.booking "u1" "1000" "Confirmed") _ eq_refl _ eq_refl _).
  - vm_compute. reflexivity.
  - simpl. repeat (apply NoDup_cons; split;
                   [rewrite ?elem_of_cons, elem_of_nil; intros H; intuition discriminate|]).
    apply NoDup_nil. done.
  - intros id fields Hdoc Hclient.
    apply elem_of_map_to_list in Hdoc. vm_compute in Hdoc.
    apply list_elem_of_In in Hdoc. simpl in Hdoc.
    destruct Hdoc as [[= <- <-]|[[= <- <-]|[[= <- <-]|[]]]];
      try discriminate Hclient; vm_compute; eauto.
Defined.

(** ** my-bookings loses no booking *)

Lemma insert_sorted_perm (compare : value → value → completion (option Z))
    (x : value) (l l' : list value) :
  Index.insert_sorted compare x l = Normal l' → l' ≡ₚ x :: l.
Proof.
  revert l'. induction l as [|y l IH]; intros l'; cbn [Index.insert_sorted].
  - by intros [= <-].
  - destruct (compare x y) as [c|thrown]; [|done].
    cbn [mbind completion_bind cbind]. destruct (Index.comes_after c).
    + destruct (Index.insert_sorted compare x l) as [rest|thrown]; [|done].
      cbn [mbind mret completion_bind completion_ret cbind]. intros [= <-].
      rewrite (IH rest) by done. apply Permutation_swap.
    + by intros [= <-].
Qed.

Lemma array_sort_perm (compare : value → value → completion (option Z))
    (l l' : list value) :
  Index.array_sort compare l = Normal l' → l' ≡ₚ l.
Proof.
  revert l'. induction l as [|x l IH]; intros l'; cbn [Index.array_sort].
  - by intros [= <-].
  - destruct (Index.array_sort compare l) as [rest|thrown]; [|done].
    cbn [mbind completion_bind cbind]. intros Hinsert%insert_sorted_perm.
    rewrite Hinsert. by rewrite (IH rest).
Qed.

(** X20.  On the in-memory store, whatever is stored, my-bookings either
    answers 500 with "Failed to fetch bookings." (a date conversion threw
    while sorting) or answers 200 with the stored bookings of the user, each
    exactly once: unreadable dates can change the order but never drop or
    repeat a booking.  A user with a single booking always gets it, as no
    date is read then. *)
Theorem my_bookings_loses_nothing {rt : Runtime} (w : world) (userId : string) :
  let matching :=
    filter (λ d, field_equals "clientId" userId d.2 = true)
      (map_to_list (docs_of w "bookings")) in
  let answer := result (run serve (Index.my_bookings userId) w) in
  (answer = Returned (send 500 (VObj [("error", VStr "Failed to fetch bookings.")]))
   ∨ ∃ bookings, answer = Returned (send 200 (VArr bookings))
                 ∧ bookings ≡ₚ Index.with_id <$> matching)
  ∧ match matching with
    | [only] => answer = Returned (send 200 (VArr [Index.with_id only]))
    | _ => True
    end.
Proof.
  cbv zeta. unfold Index.my_bookings. step. cbn [serve]. step.
  destruct (filter _ _) as [|d rest] eqn:Hm; step.
  - split; [|done]. right. by exists [].
  - split.
    + destruct (Index.array_sort _ _) as [l|thrown] eqn:Hsort; step; [|by left].
      right. exists l. split; [done|]. by apply array_sort_perm in Hsort.
    + by destruct rest.
Qed.
